(** * Computex dependency checker: a model of [check_dependencies.py]

    The script probes the host (operating system, DISPLAY, two command-line
    tools), prints one line per check, optionally shells out to a package
    manager, and returns an exit code.  It is modelled here as a program in a
    small monad that threads the state of the host, collects the calls made
    to the outside world together with the printed lines, and can raise
    Python exceptions. *)

From Stdlib Require Import String Ascii List ZArith Bool.
Import ListNotations.

Local Open Scope string_scope.
Local Open Scope list_scope.

Infix "+:+" := String.append (at level 60, right associativity).

(** ** Text

    A Python [str] is a [string] holding the UTF-8 bytes of the text. *)

Module Text.

(** Truth value of a [str]: only the empty string is false. *)
Definition truthy (s : string) : bool :=
  match s with
  | EmptyString => false
  | String _ _ => true
  end.

Definition of_codes (l : list nat) : string :=
  string_of_list_ascii (map ascii_of_nat l).

(** The characters [str.isspace] accepts, as UTF-8 byte sequences:
    TAB LF VT FF CR, FS GS RS US, SPACE, U+0085, U+00A0, U+1680,
    U+2000..U+200A, U+2028, U+2029, U+202F, U+205F, U+3000. *)
Definition whitespace_codes : list (list nat) :=
  [ [9]; [10]; [11]; [12]; [13]; [28]; [29]; [30]; [31]; [32];
    [194; 133]; [194; 160]; [225; 154; 128];
    [226; 128; 128]; [226; 128; 129]; [226; 128; 130]; [226; 128; 131];
    [226; 128; 132]; [226; 128; 133]; [226; 128; 134]; [226; 128; 135];
    [226; 128; 136]; [226; 128; 137]; [226; 128; 138];
    [226; 128; 168]; [226; 128; 169]; [226; 128; 175];
    [226; 129; 159]; [227; 128; 128] ].

Fixpoint drop_prefix (p s : list ascii) : option (list ascii) :=
  match p, s with
  | [], _ => Some s
  | a :: p', b :: s' => if Ascii.eqb a b then drop_prefix p' s' else None
  | _ :: _, [] => None
  end.

Fixpoint drop_any (ps : list (list ascii)) (s : list ascii)
  : option (list ascii) :=
  match ps with
  | [] => None
  | p :: ps' =>
      match drop_prefix p s with
      | Some s' => Some s'
      | None => drop_any ps' s
      end
  end.

Fixpoint lstrip_with (ps : list (list ascii)) (fuel : nat) (s : list ascii)
  : list ascii :=
  match fuel with
  | O => s
  | S fuel' =>
      match drop_any ps s with
      | Some s' => lstrip_with ps fuel' s'
      | None => s
      end
  end.

Definition ws_forward : list (list ascii) :=
  map (map ascii_of_nat) whitespace_codes.

Definition ws_backward : list (list ascii) :=
  map (fun l => rev (map ascii_of_nat l)) whitespace_codes.

Definition lstrip (s : list ascii) : list ascii :=
  lstrip_with ws_forward (List.length s) s.

Definition rstrip (s : list ascii) : list ascii :=
  rev (lstrip_with ws_backward (List.length s) (rev s)).

(** [s.strip()] *)
Definition strip (s : string) : string :=
  string_of_list_ascii (rstrip (lstrip (list_ascii_of_string s))).

(** [s.split("\n")[0]]: the text before the first line feed. *)
Fixpoint first_line (s : string) : string :=
  match s with
  | EmptyString => EmptyString
  | String c r =>
      if Ascii.eqb c (ascii_of_nat 10) then EmptyString
      else String c (first_line r)
  end.

(** [x in l] for a list of strings. *)
Definition mem (x : string) (l : list string) : bool :=
  existsb (String.eqb x) l.

End Text.

(** ** ANSI colours and fixed symbols *)

Module Colors.
Definition esc (code : string) : string :=
  String (ascii_of_nat 27) ("[" +:+ code +:+ "m").
Definition GREEN := esc "92".
Definition YELLOW := esc "93".
Definition RED := esc "91".
Definition BLUE := esc "94".
Definition BOLD := esc "1".
Definition RESET := esc "0".
End Colors.

(** U+2713 CHECK MARK and U+2717 BALLOT X. *)
Definition check_mark : string := Text.of_codes [226; 156; 147].
Definition ballot_x : string := Text.of_codes [226; 156; 151].
Definition LF : string := Text.of_codes [10].

(** [status] of [print_check]. *)
Definition pass_status : string :=
  Colors.GREEN +:+ check_mark +:+ " PASS" +:+ Colors.RESET.

Definition fail_status : string :=
  Colors.RED +:+ ballot_x +:+ " FAIL" +:+ Colors.RESET.

(** ** What the script asks of the outside world *)

(** Python exceptions (subclasses of [Exception]); [message] is [str(e)]. *)
Inductive ExnKind := TimeoutExpired | FileNotFoundError | OtherError.

Record Exn := { kind : ExnKind; message : string }.

(** Outcome of [subprocess.run([command, flag], capture_output=True,
    text=True, timeout=2, check=False)]. *)
Inductive RunOutcome :=
| Completed (returncode : Z) (stdout : string)
| RunRaised (e : Exn).

(** Outcome of [subprocess.run(cmd, shell=True, check=False)]. *)
Inductive ShellOutcome :=
| ShellCompleted (returncode : Z)
| ShellRaised (e : Exn).

(** [argparse] namespace of the two flags. *)
Record Args := { verbose : bool; install : bool }.

(** The data of the running process that no step of the script changes.
    [parse_args] is the namespace [argparse] builds from [sys_argv]; argparse
    accepts any unambiguous prefix of a long option, so [install] can be set
    while the literal ["--install"] is not an element of [sys_argv]. *)
Record Process := {
  platform_system : string;
  environ : string -> option string;
  sys_argv0 : string;
  sys_argv_rest : list string;
  parse_args : Args
}.

Definition sys_argv (p : Process) : list string :=
  sys_argv0 p :: sys_argv_rest p.

(** Calls to the outside world and printed lines, in the order they occur. *)
Inductive Event :=
| Print (line : string)
| PlatformSystem
| EnvironGet (key : string)
| Which (command : string)
| Run (argv : list string)
| Shell (command_line : string).

(** The host is whatever the package manager can change: which executables
    the search path resolves and what they answer.  [which] is
    [shutil.which]; version queries read the host and only the install
    command line transforms it. *)
Record System (Host : Type) := {
  which : Host -> string -> option string;
  run_version : Host -> list string -> RunOutcome;
  run_shell : Host -> string -> ShellOutcome * Host
}.
Arguments which {Host} _ _ _.
Arguments run_version {Host} _ _ _.
Arguments run_shell {Host} _ _ _.

Inductive Res (A : Type) := Ok (a : A) | Raise (e : Exn).
Arguments Ok {A} a.
Arguments Raise {A} e.

(** ** The script *)

Section Script.

Context {Host : Type} (sys : System Host) (proc : Process).

(** A computation reads the host and yields a value or an exception, the
    host afterwards and the events it caused. *)
Definition M (A : Type) : Type := Host -> Res A * Host * list Event.

Definition result_of {A} (x : Res A * Host * list Event) : Res A := fst (fst x).
Definition host_of {A} (x : Res A * Host * list Event) : Host := snd (fst x).
Definition events_of {A} (x : Res A * Host * list Event) : list Event := snd x.

Definition ret {A} (a : A) : M A := fun h => (Ok a, h, []).

Definition bind {A B} (m : M A) (k : A -> M B) : M B :=
  fun h =>
    match m h with
    | (Ok a, h1, l1) =>
        match k a h1 with
        | (r, h2, l2) => (r, h2, l1 ++ l2)
        end
    | (Raise e, h1, l1) => (Raise e, h1, l1)
    end.

(** [try: m except <those e with handler e = Some k>: k] *)
Definition try_except {A} (m : M A) (handler : Exn -> option (M A)) : M A :=
  fun h =>
    match m h with
    | (Ok a, h1, l1) => (Ok a, h1, l1)
    | (Raise e, h1, l1) =>
        match handler e with
        | Some k =>
            match k h1 with
            | (r, h2, l2) => (r, h2, l1 ++ l2)
            end
        | None => (Raise e, h1, l1)
        end
    end.

Notation "x <- m ;; k" := (bind m (fun x => k))
  (at level 61, m at next level, right associativity).
Notation "' pat <- m ;; k" := (bind m (fun x => match x with pat => k end))
  (at level 61, pat pattern, m at next level, right associativity).
Notation "m ;; k" := (bind m (fun _ => k))
  (at level 61, right associativity).

Definition print (line : string) : M unit :=
  fun h => (Ok tt, h, [Print line]).

Definition platform_system_call : M string :=
  fun h => (Ok (platform_system proc), h, [PlatformSystem]).

(** [os.environ.get(key, default)] *)
Definition environ_get (key default : string) : M string :=
  fun h =>
    (Ok (match environ proc key with Some v => v | None => default end),
     h, [EnvironGet key]).

Definition shutil_which (command : string) : M (option string) :=
  fun h => (Ok (which sys h command), h, [Which command]).

Definition subprocess_run_capture (argv : list string) : M (Z * string) :=
  fun h =>
    match run_version sys h argv with
    | Completed rc out => (Ok (rc, out), h, [Run argv])
    | RunRaised e => (Raise e, h, [Run argv])
    end.

Definition subprocess_run_shell (command_line : string) : M Z :=
  fun h =>
    match run_shell sys h command_line with
    | (ShellCompleted rc, h') => (Ok rc, h', [Shell command_line])
    | (ShellRaised e, h') => (Raise e, h', [Shell command_line])
    end.

(** Truth value of an optional [str]: [None] and the empty string are false. *)
Definition truthy_opt (o : option string) : bool :=
  match o with
  | Some s => Text.truthy s
  | None => false
  end.

Definition print_check (name : string) (passed : bool) (message : string)
    (verbose : bool) : M unit :=
  if passed then
    if verbose && Text.truthy message then
      print (pass_status +:+ " " +:+ name +:+ ": " +:+ message)
    else
      print (pass_status +:+ " " +:+ name)
  else
    print (fail_status +:+ " " +:+ name) ;;
    if Text.truthy message then print ("       " +:+ message) else ret tt.

Definition check_platform (verbose : bool) : M bool :=
  system <- platform_system_call ;;
  let is_linux := String.eqb system "Linux" in
  (if verbose then
     print_check "Platform" is_linux
       ("Running on " +:+ system +:+ " (Linux required)") verbose
   else
     print_check "Platform" is_linux
       "Not Linux - computer-use requires Linux/X11" false) ;;
  ret is_linux.

Definition check_display (verbose : bool) : M bool :=
  display <- environ_get "DISPLAY" EmptyString ;;
  let has_display := Text.truthy display in
  let msg :=
    if negb has_display then
      "Set DISPLAY (e.g., export DISPLAY=:0) or use 'computex --headless'"
    else if verbose then "DISPLAY=" +:+ display
    else EmptyString in
  print_check "DISPLAY variable" has_display msg verbose ;;
  ret has_display.

Definition is_not_none (o : option string) : bool :=
  match o with Some _ => true | None => false end.

(** [f"...{path}"] of an optional string. *)
Definition show_opt (o : option string) : string :=
  match o with Some s => s | None => "None" end.

Definition check_command (command : string) (verbose : bool)
  : M (bool * option string) :=
  path <- shutil_which command ;;
  let available := is_not_none path in
  let msg :=
    if negb available then
      if String.eqb command "xdotool" then
        "Install: sudo apt-get install -y xdotool"
      else if String.eqb command "import" then
        "Install: sudo apt-get install -y imagemagick"
      else "Command '" +:+ command +:+ "' not found in PATH"
    else if verbose then "Found at " +:+ show_opt path
    else EmptyString in
  print_check command available msg verbose ;;
  ret (available, path).

Definition version_flags : list string :=
  ["--version"; "-version"; "version"; "-V"].

(** One pass of the loop body of [check_command_version], inside its inner
    [try].  The value says whether the function returned from there. *)
Definition version_attempt (command flag : string) : M bool :=
  try_except
    ('(returncode, stdout) <- subprocess_run_capture [command; flag] ;;
     if (returncode =? 0)%Z && Text.truthy (Text.strip stdout) then
       let first_line := Text.first_line (Text.strip stdout) in
       print ("       Version: " +:+ first_line) ;;
       ret true
     else ret false)
    (fun e =>
       match kind e with
       | TimeoutExpired | FileNotFoundError => Some (ret false)
       | OtherError => None
       end).

(** [for flag in flags: ...] *)
Fixpoint version_loop (command : string) (flags : list string) : M unit :=
  match flags with
  | [] => ret tt
  | flag :: rest =>
      returned <- version_attempt command flag ;;
      if returned then ret tt else version_loop command rest
  end.

Definition check_command_version (command : string) (path : option string)
    (verbose : bool) : M unit :=
  if negb (truthy_opt path) || negb verbose then ret tt
  else try_except (version_loop command version_flags)
                  (fun _ => Some (ret tt)).

Definition get_install_command : M (option string) :=
  p <- shutil_which "apt-get" ;;
  if truthy_opt p then
    ret (Some "sudo apt-get update && sudo apt-get install -y xdotool imagemagick")
  else
    p <- shutil_which "dnf" ;;
    if truthy_opt p then
      ret (Some "sudo dnf install -y xdotool ImageMagick")
    else
      p <- shutil_which "pacman" ;;
      if truthy_opt p then
        ret (Some "sudo pacman -S xdotool imagemagick")
      else
        p <- shutil_which "yum" ;;
        if truthy_opt p then
          ret (Some "sudo yum install -y xdotool ImageMagick")
        else ret None.

Definition auto_install : M bool :=
  print (LF +:+ Colors.BOLD +:+ "Attempting to install dependencies..."
         +:+ Colors.RESET +:+ LF) ;;
  install_cmd <- get_install_command ;;
  if negb (truthy_opt install_cmd) then
    print (Colors.RED
           +:+ "Unable to detect package manager. Please install manually."
           +:+ Colors.RESET) ;;
    ret false
  else
    print ("Running: " +:+ show_opt install_cmd +:+ LF) ;;
    try_except
      (returncode <- subprocess_run_shell (show_opt install_cmd) ;;
       ret (returncode =? 0)%Z)
      (fun e =>
         Some (print (Colors.RED +:+ "Installation failed: " +:+ message e
                      +:+ Colors.RESET) ;;
               ret false)).

(** Lines 235-263 of [main]: the manual installation instructions. *)
Definition manual_instructions (has_display has_xdotool has_import : bool)
  : M unit :=
  print (LF +:+ "To install missing dependencies:") ;;
  (if negb has_display then
     print (LF +:+ "  " +:+ Colors.YELLOW +:+ "DISPLAY:" +:+ Colors.RESET
            +:+ " Set up X11 or use --headless mode") ;;
     print "    export DISPLAY=:0           # If X11 is running" ;;
     print "    computex --headless         # Use shell-only mode (no GUI tools)"
   else ret tt) ;;
  (if negb has_xdotool || negb has_import then
     install_cmd <- get_install_command ;;
     if truthy_opt install_cmd then
       print (LF +:+ "  " +:+ Colors.YELLOW +:+ "Install commands:"
              +:+ Colors.RESET) ;;
       print ("    " +:+ show_opt install_cmd)
     else
       print (LF +:+ "  " +:+ Colors.YELLOW +:+ "Manual installation:"
              +:+ Colors.RESET) ;;
       (if negb has_xdotool then
          print "    Install xdotool using your package manager"
        else ret tt) ;;
       (if negb has_import then
          print "    Install imagemagick using your package manager"
        else ret tt)
   else ret tt) ;;
  print (LF +:+ "Or run with auto-install: " +:+ Colors.BLUE +:+ "python "
         +:+ sys_argv0 proc +:+ " --install" +:+ Colors.RESET).

(** Lines 182-187 of [main]. *)
Definition unsupported_platform_notice : M unit :=
  print (LF +:+ Colors.RED
         +:+ "Computer-use GUI tools are only supported on Linux/X11."
         +:+ Colors.RESET) ;;
  print "Alternatives:" ;;
  print "  - Use 'computex --headless' for shell-only mode" ;;
  print "  - Run in a Linux VM or container".

(** Lines 209-263 of [main], from "Print summary" on; [rerun] is the call
    [main()] of line 229. *)
Definition print_summary (all_passed has_display has_xdotool has_import : bool)
    (rerun : M (option Z)) : M (option Z) :=
  let args := parse_args proc in
  print EmptyString ;;
  if all_passed then
    print (Colors.GREEN +:+ Colors.BOLD +:+ check_mark
           +:+ " All dependencies satisfied!" +:+ Colors.RESET) ;;
    print (LF +:+ "You can now use: " +:+ Colors.BLUE
           +:+ "computex --gui" +:+ Colors.RESET) ;;
    ret (Some 0%Z)
  else
    print (Colors.RED +:+ Colors.BOLD +:+ ballot_x
           +:+ " Some dependencies are missing" +:+ Colors.RESET) ;;
    let otherwise :=
      manual_instructions has_display has_xdotool has_import ;;
      ret (Some 1%Z) in
    if install args then
      installed <- auto_install ;;
      if installed then
        print (LF +:+ Colors.GREEN
               +:+ "Installation completed. Re-running checks..."
               +:+ Colors.RESET +:+ LF) ;;
        if negb (Text.mem "--install" (sys_argv proc)) then rerun
        else ret (Some 1%Z)
      else
        print (LF +:+ Colors.RED
               +:+ "Auto-installation failed. Please install manually."
               +:+ Colors.RESET) ;;
        otherwise
    else otherwise.

(** [main] calls itself after a successful install; [fuel] bounds the depth
    of these calls and [None] is the answer of a call that is out of it. *)
Fixpoint main (fuel : nat) : M (option Z) :=
  match fuel with
  | O => ret None
  | S fuel' =>
      let args := parse_args proc in
      print (Colors.BOLD +:+ "Computex Computer-Use Dependency Check"
             +:+ Colors.RESET +:+ LF) ;;
      let all_passed := true in
      is_linux <- check_platform (verbose args) ;;
      if negb is_linux then
        unsupported_platform_notice ;;
        ret (Some 2%Z)
      else
        has_display <- check_display (verbose args) ;;
        let all_passed := if negb has_display then false else all_passed in
        '(has_xdotool, xdotool_path) <- check_command "xdotool" (verbose args) ;;
        let all_passed := if negb has_xdotool then false else all_passed in
        (if negb has_xdotool then ret tt
         else if verbose args then
           check_command_version "xdotool" xdotool_path (verbose args)
         else ret tt) ;;
        '(has_import, import_path) <- check_command "import" (verbose args) ;;
        let all_passed := if negb has_import then false else all_passed in
        (if negb has_import then ret tt
         else if verbose args then
           check_command_version "import" import_path (verbose args)
         else ret tt) ;;
        print_summary all_passed has_display has_xdotool has_import
          (main fuel')
  end.

End Script.

(** ** Reading a run *)

(** The calls to the outside world among the events, printing left out. *)
Definition probes (l : list Event) : list Event :=
  filter (fun e => match e with Print _ => false | _ => true end) l.

(** The command lines handed to the shell. *)
Definition shell_commands (l : list Event) : list string :=
  flat_map (fun e => match e with Shell c => [c] | _ => [] end) l.

Definition printed (l : list Event) : list string :=
  flat_map (fun e => match e with Print s => [s] | _ => [] end) l.

(** What a printed line reports about the check called [name]. *)
Definition line_mark (name line : string) : option bool :=
  if String.prefix (pass_status +:+ " " +:+ name) line then Some true
  else if String.prefix (fail_status +:+ " " +:+ name) line then Some false
  else None.

Fixpoint line_verdict (names : list string) (line : string)
  : option (string * bool) :=
  match names with
  | [] => None
  | name :: rest =>
      match line_mark name line with
      | Some b => Some (name, b)
      | None => line_verdict rest line
      end
  end.

(** The pass/fail reports of the checks called [names], in printing order. *)
Definition verdicts (names : list string) (l : list Event)
  : list (string * bool) :=
  flat_map (fun s => match line_verdict names s with
                     | Some v => [v]
                     | None => []
                     end) (printed l).

Definition check_names : list string :=
  ["Platform"; "DISPLAY variable"; "xdotool"; "import"].

(** The lines [print_check] prints. *)
Definition check_lines (name : string) (passed : bool) (message : string)
    (verbose : bool) : list string :=
  if passed then
    if verbose && Text.truthy message then
      [pass_status +:+ " " +:+ name +:+ ": " +:+ message]
    else [pass_status +:+ " " +:+ name]
  else
    (fail_status +:+ " " +:+ name)
    :: (if Text.truthy message then ["       " +:+ message] else []).

(** The environment variable DISPLAY is set to a non-empty value. *)
Definition display_set (p : Process) : Prop :=
  exists v, environ p "DISPLAY" = Some v /\ v <> EmptyString.

(** [sub] occurs in [s]. *)
Definition contains (sub s : string) : bool :=
  match String.index 0 sub s with Some _ => true | None => false end.

(** ** The installer's contract, in the words of the specification

    The known package managers in priority order, each with the command
    line that installs both tools. *)
Definition package_managers : list (string * string) :=
  [ ("apt-get",
     "sudo apt-get update && sudo apt-get install -y xdotool imagemagick");
    ("dnf", "sudo dnf install -y xdotool ImageMagick");
    ("pacman", "sudo pacman -S xdotool imagemagick");
    ("yum", "sudo yum install -y xdotool ImageMagick") ].

(** A package manager is found when the search for its executable gives a
    path (the truth value the script tests). *)
Definition found {Host} (sys : System Host) (h : Host) (name : string) : bool :=
  truthy_opt (which sys h name).

(** Test the managers in order; answer with the command line of the first
    one found, together with the names tested on the way. *)
Fixpoint first_found (is_found : string -> bool) (ms : list (string * string))
  : option string * list string :=
  match ms with
  | [] => (None, [])
  | (name, line) :: rest =>
      if is_found name then (Some line, [name])
      else let '(r, tested) := first_found is_found rest in (r, name :: tested)
  end.

Definition names_both_tools (line : string) : bool :=
  contains "xdotool" line
  && (contains "imagemagick" line || contains "ImageMagick" line).

(** ** Version probing, outcome by outcome *)

(** The invocation ends the probing with a version line. *)
Definition answers_version (o : RunOutcome) : option string :=
  match o with
  | Completed rc out =>
      if (rc =? 0)%Z && Text.truthy (Text.strip out)
      then Some (Text.first_line (Text.strip out)) else None
  | RunRaised _ => None
  end.

(** The invocation is passed over and the next flag is tried: a non-zero
    exit status, blank output, a timeout or a missing executable. *)
Definition passed_over (o : RunOutcome) : bool :=
  match o with
  | Completed rc out => negb ((rc =? 0)%Z && Text.truthy (Text.strip out))
  | RunRaised e =>
      match kind e with
      | TimeoutExpired | FileNotFoundError => true
      | OtherError => false
      end
  end.

(** ** Sample machines *)

Module Demo.

(** The commands on the search path and what a version query answers. *)
Record Host := {
  on_path : list string;
  answer : list string -> RunOutcome
}.

Definition resolve (h : Host) (command : string) : option string :=
  if Text.mem command (on_path h) then Some ("/usr/bin/" +:+ command)
  else None.

(** A package manager that works: afterwards both tools are on the path. *)
Definition install_tools (h : Host) (command_line : string)
  : ShellOutcome * Host :=
  (ShellCompleted 0,
   {| on_path := "xdotool" :: "import" :: on_path h; answer := answer h |}).

Definition sys : System Host :=
  {| which := resolve;
     run_version := answer;
     run_shell := install_tools |}.

(** A tool that prints a blank line for [--version] and its version for
    [-version]. *)
Definition blank_then_version (argv : list string) : RunOutcome :=
  match argv with
  | [_; "--version"] => Completed 0 LF
  | [c; "-version"] => Completed 0 (c +:+ " 1.0" +:+ LF +:+ "build 7" +:+ LF)
  | _ => Completed 1 EmptyString
  end.

(** A tool whose invocation fails with a permission error. *)
Definition permission_denied (argv : list string) : RunOutcome :=
  RunRaised {| kind := OtherError; message := "Permission denied" |}.

Definition host (commands : list string) : Host :=
  {| on_path := commands; answer := blank_then_version |}.

Definition process (system : string) (display : option string)
    (argv : list string) (args : Args) : Process :=
  {| platform_system := system;
     environ := fun k => if String.eqb k "DISPLAY" then display else None;
     sys_argv0 := "check_dependencies.py";
     sys_argv_rest := argv;
     parse_args := args |}.

End Demo.

(** ** The events of the checks, written out *)

Definition platform_message (p : Process) (verbose : bool) : string :=
  if verbose then "Running on " +:+ platform_system p +:+ " (Linux required)"
  else "Not Linux - computer-use requires Linux/X11".

Definition display_value (p : Process) : string :=
  match environ p "DISPLAY" with Some v => v | None => EmptyString end.

Definition display_message (p : Process) (verbose : bool) : string :=
  if negb (Text.truthy (display_value p)) then
    "Set DISPLAY (e.g., export DISPLAY=:0) or use 'computex --headless'"
  else if verbose then "DISPLAY=" +:+ display_value p
  else EmptyString.

Definition command_message (command : string) (path : option string)
    (verbose : bool) : string :=
  if negb (is_not_none path) then
    if String.eqb command "xdotool" then
      "Install: sudo apt-get install -y xdotool"
    else if String.eqb command "import" then
      "Install: sudo apt-get install -y imagemagick"
    else "Command '" +:+ command +:+ "' not found in PATH"
  else if verbose then "Found at " +:+ show_opt path
  else EmptyString.

Definition platform_events (p : Process) (verbose : bool) : list Event :=
  PlatformSystem
    :: map Print (check_lines "Platform"
                    (String.eqb (platform_system p) "Linux")
                    (platform_message p verbose) verbose).

Definition display_events (p : Process) (verbose : bool) : list Event :=
  EnvironGet "DISPLAY"
    :: map Print (check_lines "DISPLAY variable"
                    (Text.truthy (display_value p))
                    (display_message p verbose) verbose).

Definition command_events (command : string) (path : option string)
    (verbose : bool) : list Event :=
  Which command
    :: map Print (check_lines command (is_not_none path)
                    (command_message command path verbose) verbose).

Definition version_line (line : string) : Event :=
  Print ("       Version: " +:+ line).

(** The invocations of a version probe that walks [flags], and the line it
    prints, from the outcome of each invocation. *)
Fixpoint version_events (answer : list string -> RunOutcome)
    (command : string) (flags : list string) : list Event :=
  match flags with
  | [] => []
  | flag :: rest =>
      Run [command; flag]
        :: match answers_version (answer [command; flag]) with
           | Some line => [version_line line]
           | None =>
               if passed_over (answer [command; flag])
               then version_events answer command rest
               else []
           end
  end.

(** The events of [check_command] followed by the version probe [main]
    runs for a tool that was found, in verbose mode. *)
Definition tool_events {Host} (sys : System Host) (h : Host)
    (command : string) (verbose : bool) : list Event :=
  command_events command (which sys h command) verbose
  ++ (if is_not_none (which sys h command) && verbose
         && truthy_opt (which sys h command)
      then version_events (run_version sys h) command version_flags
      else []).

Definition banner : Event :=
  Print (Colors.BOLD +:+ "Computex Computer-Use Dependency Check"
         +:+ Colors.RESET +:+ LF).

(** The same process started with or without [-v]. *)
Definition with_verbose (b : bool) (p : Process) : Process :=
  {| platform_system := platform_system p;
     environ := environ p;
     sys_argv0 := sys_argv0 p;
     sys_argv_rest := sys_argv_rest p;
     parse_args := {| verbose := b; install := install (parse_args p) |} |}.

(** Two runs agree on their answer, on the host they leave and on the
    pass/fail report of every check. *)
Definition same_outcome {Host A} (x y : Res A * Host * list Event) : Prop :=
  result_of x = result_of y
  /\ host_of x = host_of y
  /\ verdicts check_names (events_of x) = verdicts check_names (events_of y).

(** How many of the given checks failed. *)
Definition failures (checks : list bool) : nat :=
  List.length (filter negb checks).

(** Fixed lines of the installer and of the summary. *)
Definition attempting : Event :=
  Print (LF +:+ Colors.BOLD +:+ "Attempting to install dependencies..."
         +:+ Colors.RESET +:+ LF).

Definition unable : Event :=
  Print (Colors.RED
         +:+ "Unable to detect package manager. Please install manually."
         +:+ Colors.RESET).

Definition instructions_header : Event :=
  Print (LF +:+ "To install missing dependencies:").

Definition missing_notice : Event :=
  Print (Colors.RED +:+ Colors.BOLD +:+ ballot_x
         +:+ " Some dependencies are missing" +:+ Colors.RESET).

Definition rerun_notice : Event :=
  Print (LF +:+ Colors.GREEN +:+ "Installation completed. Re-running checks..."
         +:+ Colors.RESET +:+ LF).

Definition install_failed_notice : Event :=
  Print (LF +:+ Colors.RED
         +:+ "Auto-installation failed. Please install manually."
         +:+ Colors.RESET).

Definition satisfied_notice : list Event :=
  [ Print EmptyString;
    Print (Colors.GREEN +:+ Colors.BOLD +:+ check_mark
           +:+ " All dependencies satisfied!" +:+ Colors.RESET);
    Print (LF +:+ "You can now use: " +:+ Colors.BLUE +:+ "computex --gui"
           +:+ Colors.RESET) ].

(** The conditions the three checks after the platform gate test. *)
Definition display_ok (p : Process) : bool := Text.truthy (display_value p).

Definition tool_ok {Host} (sys : System Host) (h : Host) (command : string)
  : bool :=
  is_not_none (which sys h command).

(** ** Further readings of a run *)

(** The three checks after the platform gate all pass on this host. *)
Definition all_ok {Host} (sys : System Host) (p : Process) (h : Host) : bool :=
  display_ok p && tool_ok sys h "xdotool" && tool_ok sys h "import".

(** The installer reports success on this host. *)
Definition installs {Host} (sys : System Host) (h : Host) : bool :=
  match result_of (auto_install sys h) with
  | Ok true => true
  | _ => false
  end.

(** The driver calls itself after the checks made on this host. *)
Definition reruns {Host} (sys : System Host) (p : Process) (h : Host) : bool :=
  install (parse_args p) && installs sys h
  && negb (Text.mem "--install" (sys_argv p)).

(** The exit code one round of checks gives when nothing is installed. *)
Definition checks_code {Host} (sys : System Host) (p : Process) (h : Host)
  : Z :=
  if negb (String.eqb (platform_system p) "Linux") then 2%Z
  else if all_ok sys p h then 0%Z
  else 1%Z.

(** The text holds a line feed. *)
Fixpoint has_line_feed (s : string) : bool :=
  match s with
  | EmptyString => false
  | String c r => Ascii.eqb c (ascii_of_nat 10) || has_line_feed r
  end.

(** The argument vectors of the processes run for a version. *)
Definition runs (l : list Event) : list (list string) :=
  flat_map (fun e => match e with Run argv => [argv] | _ => [] end) l.

(** What the script may ask of the outside world, given its flags. *)
Definition allowed (p : Process) (e : Event) : Prop :=
  match e with
  | Print _ => True
  | PlatformSystem => True
  | EnvironGet key => key = "DISPLAY"
  | Which command =>
      In command ["xdotool"; "import"; "apt-get"; "dnf"; "pacman"; "yum"]
  | Run argv =>
      verbose (parse_args p) = true
      /\ exists command flag,
          argv = [command; flag]
          /\ In command ["xdotool"; "import"]
          /\ In flag version_flags
  | Shell line =>
      install (parse_args p) = true /\ In line (map snd package_managers)
  end.

(** The closing line of the manual instructions. *)
Definition retry_hint (p : Process) : Event :=
  Print (LF +:+ "Or run with auto-install: " +:+ Colors.BLUE +:+ "python "
         +:+ sys_argv0 p +:+ " --install" +:+ Colors.RESET).

(** The event is a printed line or a search of the path. *)
Definition print_or_search (e : Event) : Prop :=
  match e with
  | Print _ | Which _ => True
  | _ => False
  end.

Definition display_help : list string :=
  [ "    export DISPLAY=:0           # If X11 is running";
    "    computex --headless         # Use shell-only mode (no GUI tools)" ].

(** ** Running the monad *)

Section Properties.

Context {Host : Type} (sys : System Host) (proc : Process).

Lemma print_check_run name passed message verbose (h : Host) :
  print_check name passed message verbose h
  = (Ok tt, h, map Print (check_lines name passed message verbose)).
Proof.
  unfold print_check, check_lines, bind, print, ret.
  destruct passed; [destruct (verbose && Text.truthy message)|
                    destruct (Text.truthy message)]; reflexivity.
Qed.

Lemma check_platform_run verbose (h : Host) :
  check_platform proc verbose h
  = (Ok (platform_system proc =? "Linux")%string, h,
     platform_events proc verbose).
Proof.
  unfold check_platform, bind, platform_system_call, platform_events,
    platform_message.
  destruct verbose; rewrite print_check_run; cbn [ret]; rewrite app_nil_r;
    reflexivity.
Qed.

Lemma check_display_run verbose (h : Host) :
  check_display proc verbose h
  = (Ok (Text.truthy (display_value proc)), h, display_events proc verbose).
Proof.
  unfold check_display, bind, environ_get, display_events, display_message,
    display_value.
  rewrite print_check_run. cbn [ret]. rewrite app_nil_r. reflexivity.
Qed.

Lemma check_command_run command verbose (h : Host) :
  check_command sys command verbose h
  = (Ok (is_not_none (which sys h command), which sys h command), h,
     command_events command (which sys h command) verbose).
Proof.
  unfold check_command, bind, shutil_which, command_events, command_message.
  rewrite print_check_run. cbn [ret]. rewrite app_nil_r. reflexivity.
Qed.

(** *** The version probe *)

Lemma version_attempt_run command flag (h : Host) :
  version_attempt sys command flag h
  = match run_version sys h [command; flag] with
    | Completed rc out =>
        if (rc =? 0)%Z && Text.truthy (Text.strip out)
        then (Ok true, h,
              [Run [command; flag];
               version_line (Text.first_line (Text.strip out))])
        else (Ok false, h, [Run [command; flag]])
    | RunRaised e =>
        match kind e with
        | OtherError => (Raise e, h, [Run [command; flag]])
        | _ => (Ok false, h, [Run [command; flag]])
        end
    end.
Proof.
  unfold version_attempt, try_except, bind, subprocess_run_capture.
  destruct (run_version sys h [command; flag]) as [rc out|e].
  - destruct ((rc =? 0)%Z && Text.truthy (Text.strip out)); reflexivity.
  - destruct (kind e); reflexivity.
Qed.

Lemma version_loop_run command flags (h : Host) :
  exists r,
    version_loop sys command flags h
    = (r, h, version_events (run_version sys h) command flags).
Proof.
  induction flags as [|flag rest IH]; cbn [version_loop version_events].
  - now exists (Ok tt).
  - unfold bind. rewrite version_attempt_run.
    unfold answers_version, passed_over.
    destruct (run_version sys h [command; flag]) as [rc out|e].
    + destruct ((rc =? 0)%Z && Text.truthy (Text.strip out)); cbn.
      * now exists (Ok tt).
      * destruct IH as [r ->]. now exists r.
    + destruct (kind e); cbn;
        try (destruct IH as [r ->]; now exists r).
      now exists (Raise e).
Qed.

Lemma check_command_version_run command path verbose (h : Host) :
  check_command_version sys command path verbose h
  = (Ok tt, h,
     if truthy_opt path && verbose
     then version_events (run_version sys h) command version_flags
     else []).
Proof.
  unfold check_command_version.
  destruct (truthy_opt path); cbn [negb orb andb]; [|reflexivity].
  destruct verbose; cbn [negb]; [|reflexivity].
  unfold try_except.
  destruct (version_loop_run command version_flags h) as [r ->].
  destruct r as [[]|e]; cbn [ret]; now rewrite ?app_nil_r.
Qed.


(** *** The installer *)

Lemma get_install_command_run (h : Host) :
  get_install_command sys h
  = (Ok (fst (first_found (found sys h) package_managers)), h,
     map Which (snd (first_found (found sys h) package_managers))).
Proof.
  unfold get_install_command, bind, shutil_which, found.
  cbn [package_managers first_found].
  destruct (truthy_opt (which sys h "apt-get")); [reflexivity|].
  destruct (truthy_opt (which sys h "dnf")); [reflexivity|].
  destruct (truthy_opt (which sys h "pacman")); [reflexivity|].
  destruct (truthy_opt (which sys h "yum")); reflexivity.
Qed.

Lemma first_found_line is_found ms line :
  fst (first_found is_found ms) = Some line -> In line (map snd ms).
Proof.
  induction ms as [|[name l] rest IH]; cbn; [discriminate|].
  destruct (is_found name); cbn.
  - intros [= ->]. now left.
  - destruct (first_found is_found rest) as [r tested]. cbn in *.
    intros E. right. now apply IH.
Qed.

Lemma first_found_none is_found ms :
  (forall name, In name (map fst ms) -> is_found name = false) ->
  first_found is_found ms = (None, map fst ms).
Proof.
  induction ms as [|[name l] rest IH]; cbn; intros Hn; [reflexivity|].
  rewrite (Hn name (or_introl eq_refl)).
  rewrite IH; [reflexivity|]. intros n Hin. apply Hn. now right.
Qed.

Lemma plan_truthy (h : Host) line :
  fst (first_found (found sys h) package_managers) = Some line ->
  Text.truthy line = true.
Proof.
  intros E. apply first_found_line in E. cbn in E.
  destruct E as [<-|[<-|[<-|[<-|[]]]]]; reflexivity.
Qed.

Lemma auto_install_run (h : Host) :
  auto_install sys h
  = match fst (first_found (found sys h) package_managers) with
    | None =>
        (Ok false, h,
         attempting
           :: map Which (snd (first_found (found sys h) package_managers))
           ++ [unable])
    | Some line =>
        let before :=
          attempting
            :: map Which (snd (first_found (found sys h) package_managers))
            ++ [Print ("Running: " +:+ line +:+ LF); Shell line] in
        match run_shell sys h line with
        | (ShellCompleted rc, h') => (Ok (rc =? 0)%Z, h', before)
        | (ShellRaised e, h') =>
            (Ok false, h',
             before ++ [Print (Colors.RED +:+ "Installation failed: "
                               +:+ message e +:+ Colors.RESET)])
        end
    end.
Proof.
  unfold auto_install, bind at 1. cbn [print].
  unfold bind at 1. rewrite get_install_command_run.
  destruct (fst (first_found (found sys h) package_managers)) as [line|] eqn:E.
  - cbn [truthy_opt]. rewrite (plan_truthy h line E). cbn [negb show_opt].
    unfold bind at 1. cbn [print]. unfold try_except, bind, subprocess_run_shell.
    destruct (run_shell sys h line) as [[rc|e] h']; cbn [ret print];
      rewrite ?app_nil_r; cbn [app]; rewrite <- ?app_assoc; reflexivity.
  - cbn [truthy_opt negb]. unfold bind, print, ret. cbn [app]. reflexivity.
Qed.

Lemma auto_install_total (h : Host) :
  exists b h' l, auto_install sys h = (Ok b, h', l).
Proof.
  rewrite auto_install_run.
  destruct (fst (first_found (found sys h) package_managers)) as [line|].
  - cbv zeta. destruct (run_shell sys h line) as [[rc|e] h']; eauto.
  - eauto.
Qed.

Ltac run_monad := unfold bind, print, ret; cbv beta iota.

Lemma manual_instructions_run d x i (h : Host) :
  manual_instructions sys proc d x i h
  = (Ok tt, h, events_of (manual_instructions sys proc d x i h)).
Proof.
  unfold manual_instructions.
  destruct d, x, i; cbn [negb orb]; run_monad;
    rewrite ?get_install_command_run; cbv beta iota;
    destruct (truthy_opt (fst (first_found (found sys h) package_managers)));
    reflexivity.
Qed.

Lemma manual_instructions_header d x i (h : Host) :
  exists l,
    events_of (manual_instructions sys proc d x i h) = instructions_header :: l.
Proof.
  unfold manual_instructions.
  destruct d, x, i; cbn [negb orb]; run_monad;
    rewrite ?get_install_command_run; cbv beta iota;
    destruct (truthy_opt (fst (first_found (found sys h) package_managers)));
    eexists; reflexivity.
Qed.

Lemma first_found_fst_none is_found ms :
  fst (first_found is_found ms) = None ->
  first_found is_found ms = (None, map fst ms).
Proof.
  induction ms as [|[name l] rest IH]; cbn; [reflexivity|].
  destruct (is_found name); [discriminate|].
  destruct (first_found is_found rest) as [r tested]. cbn in *.
  intros ->. now injection (IH eq_refl) as ->.
Qed.

Ltac in_list := cbn; repeat first [left; reflexivity | right].

Lemma manual_instructions_no_manager d x i (h : Host) :
  fst (first_found (found sys h) package_managers) = None ->
  shell_commands (events_of (manual_instructions sys proc d x i h)) = []
  /\ (x = false ->
      In (Print "    Install xdotool using your package manager")
         (events_of (manual_instructions sys proc d x i h)))
  /\ (i = false ->
      In (Print "    Install imagemagick using your package manager")
         (events_of (manual_instructions sys proc d x i h))).
Proof.
  intros E. apply first_found_fst_none in E.
  unfold manual_instructions.
  destruct d, x, i; cbn [negb orb]; run_monad;
    rewrite ?get_install_command_run, ?E; cbn [fst snd truthy_opt];
    cbv beta iota; (split; [reflexivity|]);
    (split; intros; [try discriminate; in_list | try discriminate; in_list]).
Qed.


(** *** The driver *)

Lemma main_linux fuel (h : Host) :
  platform_system proc = "Linux" ->
  let v := verbose (parse_args proc) in
  let d := Text.truthy (display_value proc) in
  let x := is_not_none (which sys h "xdotool") in
  let i := is_not_none (which sys h "import") in
  let T := print_summary sys proc (d && x && i) d x i (main sys proc fuel) h in
  main sys proc (S fuel) h
  = (result_of T, host_of T,
     banner :: platform_events proc v ++ display_events proc v
       ++ tool_events sys h "xdotool" v ++ tool_events sys h "import" v
       ++ events_of T).
Proof.
  intros HL v d x i T. cbn [main]. cbv zeta. run_monad.
  rewrite check_platform_run. cbv beta iota. rewrite HL.
  cbn [String.eqb Ascii.eqb Bool.eqb negb].
  rewrite check_display_run. cbv beta iota.
  rewrite check_command_run. cbv beta iota.
  subst T x i d v. unfold tool_events.
  set (v := verbose (parse_args proc)).
  set (d := Text.truthy (display_value proc)).
  destruct v;
    (destruct (which sys h "xdotool") as [px|] eqn:Ex;
       cbn [is_not_none negb andb]);
    rewrite ?check_command_version_run; cbv beta iota;
    rewrite check_command_run; cbv beta iota;
    (destruct (which sys h "import") as [pi|] eqn:Ei;
       cbn [is_not_none negb andb]);
    rewrite ?check_command_version_run; cbv beta iota;
    destruct d; cbn [negb andb];
    match goal with
    | |- context [print_summary ?a ?b ?c ?e ?f ?g ?k ?s] =>
        destruct (print_summary a b c e f g k s) as [[r h'] l]
    end;
    cbn [result_of host_of events_of fst snd];
    rewrite ?andb_true_r, ?app_nil_r, ?app_nil_l; cbn [app];
    rewrite <- ?app_assoc; reflexivity.
Qed.


Lemma print_summary_passed d x i rerun (h : Host) :
  print_summary sys proc true d x i rerun h
  = (Ok (Some 0%Z), h, satisfied_notice).
Proof. reflexivity. Qed.

Lemma print_summary_failed d x i rerun (h : Host) :
  print_summary sys proc false d x i rerun h
  = if install (parse_args proc) then
      match auto_install sys h with
      | (Ok true, h', l) =>
          if negb (Text.mem "--install" (sys_argv proc)) then
            (result_of (rerun h'), host_of (rerun h'),
             Print EmptyString :: missing_notice :: l ++ rerun_notice
               :: events_of (rerun h'))
          else
            (Ok (Some 1%Z), h',
             Print EmptyString :: missing_notice :: l ++ [rerun_notice])
      | (Ok false, h', l) =>
          (Ok (Some 1%Z), h',
           Print EmptyString :: missing_notice :: l ++ install_failed_notice
             :: events_of (manual_instructions sys proc d x i h'))
      | (Raise e, h', l) => (Raise e, h', Print EmptyString :: missing_notice :: l)
      end
    else
      (Ok (Some 1%Z), h,
       Print EmptyString :: missing_notice
         :: events_of (manual_instructions sys proc d x i h)).
Proof.
  unfold print_summary. cbv zeta. run_monad.
  destruct (install (parse_args proc)).
  - destruct (auto_install sys h) as [[[[]|e] h'] l]; cbv beta iota.
    + destruct (negb (Text.mem "--install" (sys_argv proc))).
      * destruct (rerun h') as [[r h2] l2]. reflexivity.
      * reflexivity.
    + pose proof (manual_instructions_run d x i h') as E.
      destruct (manual_instructions sys proc d x i h') as [[r0 h0] l0].
      injection E as -> ->. cbn [events_of snd app].
      now rewrite app_nil_r.
    + reflexivity.
  - pose proof (manual_instructions_run d x i h) as E.
    destruct (manual_instructions sys proc d x i h) as [[r0 h0] l0].
    injection E as -> ->. cbn [events_of snd app].
    now rewrite app_nil_r.
Qed.


(** *** Reading the events *)

Lemma printed_app l1 l2 : printed (l1 ++ l2) = printed l1 ++ printed l2.
Proof. unfold printed. now rewrite flat_map_app. Qed.

Lemma verdicts_app names l1 l2 :
  verdicts names (l1 ++ l2) = verdicts names l1 ++ verdicts names l2.
Proof. unfold verdicts. now rewrite printed_app, flat_map_app. Qed.

Lemma shell_commands_app l1 l2 :
  shell_commands (l1 ++ l2) = shell_commands l1 ++ shell_commands l2.
Proof. unfold shell_commands. now rewrite flat_map_app. Qed.

Lemma probes_app l1 l2 : probes (l1 ++ l2) = probes l1 ++ probes l2.
Proof. unfold probes. now rewrite filter_app. Qed.

Lemma printed_map_Print lines : printed (map Print lines) = lines.
Proof.
  induction lines as [|s lines IH]; cbn; [reflexivity|]. now f_equal.
Qed.

Lemma probes_map_Print lines : probes (map Print lines) = [].
Proof. induction lines; cbn; auto. Qed.

Lemma shell_commands_map_Print lines : shell_commands (map Print lines) = [].
Proof. induction lines; cbn; auto. Qed.

Lemma prefix_append s t : String.prefix s (s +:+ t) = true.
Proof.
  induction s as [|c s IH]; cbn; [now destruct t|].
  destruct (ascii_dec c c); [exact IH|congruence].
Qed.

Lemma prefix_refl s : String.prefix s s = true.
Proof.
  induction s as [|c s IH]; cbn; [reflexivity|].
  destruct (ascii_dec c c); [exact IH|congruence].
Qed.

Lemma line_mark_check_lines name passed message verbose :
  flat_map (fun s => match line_mark name s with
                     | Some b => [b]
                     | None => []
                     end) (check_lines name passed message verbose)
  = [passed].
Proof.
  unfold check_lines, line_mark.
  destruct passed.
  - destruct (verbose && Text.truthy message); cbn [flat_map app].
    + change (pass_status +:+ " " +:+ name +:+ ": " +:+ message)
        with ((pass_status +:+ " " +:+ name) +:+ ": " +:+ message).
      now rewrite prefix_append.
    + now rewrite prefix_refl.
  - assert (E : String.prefix (pass_status +:+ " " +:+ name)
                  (fail_status +:+ " " +:+ name) = false) by reflexivity.
    destruct (Text.truthy message); cbn [flat_map app];
      rewrite E, prefix_refl; reflexivity.
Qed.

Lemma verdicts_one_name name lines :
  verdicts [name] (map Print lines)
  = map (pair name)
      (flat_map (fun s => match line_mark name s with
                          | Some b => [b]
                          | None => []
                          end) lines).
Proof.
  unfold verdicts. rewrite printed_map_Print.
  induction lines as [|s lines IH]; cbn [flat_map map]; [reflexivity|].
  rewrite map_app, <- IH. cbn [line_verdict].
  now destruct (line_mark name s).
Qed.

Lemma verdicts_check_lines name passed message verbose :
  In name check_names ->
  verdicts check_names (map Print (check_lines name passed message verbose))
  = [(name, passed)].
Proof.
  intros H. unfold verdicts. rewrite printed_map_Print. cbn in H.
  destruct H as [<-|[<-|[<-|[<-|[]]]]]; destruct passed, verbose, message;
    reflexivity.
Qed.

Lemma verdicts_cons_probe names e l :
  (forall s, e <> Print s) -> verdicts names (e :: l) = verdicts names l.
Proof.
  intros H. unfold verdicts. destruct e; try reflexivity.
  now destruct (H line).
Qed.

Lemma verdicts_platform_events verbose :
  verdicts check_names (platform_events proc verbose)
  = [("Platform", (platform_system proc =? "Linux")%string)].
Proof.
  unfold platform_events. rewrite verdicts_cons_probe by discriminate.
  apply verdicts_check_lines. cbn. auto.
Qed.

Lemma verdicts_display_events verbose :
  verdicts check_names (display_events proc verbose)
  = [("DISPLAY variable", display_ok proc)].
Proof.
  unfold display_events. rewrite verdicts_cons_probe by discriminate.
  apply verdicts_check_lines. cbn. auto.
Qed.

Lemma verdicts_command_events command path verbose :
  In command check_names ->
  verdicts check_names (command_events command path verbose)
  = [(command, is_not_none path)].
Proof.
  intros H. unfold command_events.
  rewrite verdicts_cons_probe by discriminate.
  now apply verdicts_check_lines.
Qed.

Lemma verdicts_version_events names answer command flags :
  verdicts names (version_events answer command flags) = [].
Proof.
  induction flags as [|flag rest IH]; cbn [version_events]; [reflexivity|].
  rewrite verdicts_cons_probe by discriminate.
  destruct (answers_version (answer [command; flag])).
  - unfold verdicts, version_line. cbn [printed flat_map app]. clear IH.
    induction names as [|n names IHn]; [reflexivity|].
    cbn [line_verdict]. unfold line_mark.
    replace (String.prefix (pass_status +:+ " " +:+ n)
               ("       Version: " +:+ s)) with false by reflexivity.
    replace (String.prefix (fail_status +:+ " " +:+ n)
               ("       Version: " +:+ s)) with false by reflexivity.
    exact IHn.
  - destruct (passed_over (answer [command; flag])); [exact IH|reflexivity].
Qed.

Lemma verdicts_tool_events (h : Host) command verbose :
  In command check_names ->
  verdicts check_names (tool_events sys h command verbose)
  = [(command, tool_ok sys h command)].
Proof.
  intros H. unfold tool_events. rewrite verdicts_app.
  rewrite (verdicts_command_events _ _ _ H).
  destruct (is_not_none (which sys h command) && verbose
            && truthy_opt (which sys h command));
    [rewrite verdicts_version_events|]; reflexivity.
Qed.

Lemma shell_commands_version_events answer command flags :
  shell_commands (version_events answer command flags) = [].
Proof.
  induction flags as [|flag rest IH]; cbn [version_events]; [reflexivity|].
  cbn [shell_commands flat_map app].
  destruct (answers_version (answer [command; flag])); [reflexivity|].
  destruct (passed_over (answer [command; flag])); [exact IH|reflexivity].
Qed.

Lemma shell_commands_tool_events (h : Host) command verbose :
  shell_commands (tool_events sys h command verbose) = [].
Proof.
  unfold tool_events, command_events. rewrite shell_commands_app.
  cbn [shell_commands flat_map app].
  fold (shell_commands
          (map Print (check_lines command (is_not_none (which sys h command))
                        (command_message command (which sys h command) verbose)
                        verbose))).
  rewrite shell_commands_map_Print.
  destruct (is_not_none (which sys h command) && verbose
            && truthy_opt (which sys h command));
    [apply shell_commands_version_events|reflexivity].
Qed.

Lemma shell_commands_platform_events verbose :
  shell_commands (platform_events proc verbose) = [].
Proof.
  unfold platform_events. cbn [shell_commands flat_map app].
  apply shell_commands_map_Print.
Qed.

Lemma shell_commands_display_events verbose :
  shell_commands (display_events proc verbose) = [].
Proof.
  unfold display_events. cbn [shell_commands flat_map app].
  apply shell_commands_map_Print.
Qed.

Lemma display_ok_iff : display_ok proc = true <-> display_set proc.
Proof.
  unfold display_ok, display_value, display_set.
  destruct (environ proc "DISPLAY") as [v|].
  - split.
    + intros T. exists v. split; [reflexivity|]. now intros ->.
    + intros (w & [= <-] & Hw). now destruct v.
  - split; [discriminate|]. now intros (w & E & _).
Qed.

Lemma tool_ok_iff (h : Host) command :
  tool_ok sys h command = true <-> which sys h command <> None.
Proof.
  unfold tool_ok. destruct (which sys h command); cbn; split; congruence.
Qed.

Lemma first_found_split is_found ms :
  match first_found is_found ms with
  | (Some line, tested) =>
      exists before name after,
        ms = before ++ (name, line) :: after
        /\ forallb (fun m => negb (is_found (fst m))) before = true
        /\ is_found name = true
        /\ tested = map fst before ++ [name]
  | (None, tested) =>
      forallb (fun m => negb (is_found (fst m))) ms = true
      /\ tested = map fst ms
  end.
Proof.
  induction ms as [|[name line] rest IH]; cbn; [auto|].
  destruct (is_found name) eqn:F.
  - exists [], name, rest. cbn. auto.
  - destruct (first_found is_found rest) as [[l|] tested]; cbn.
    + destruct IH as (before & n & after & -> & Hb & Hn & ->).
      exists ((name, line) :: before), n, after. cbn. rewrite F. cbn. auto.
    + destruct IH as [Hall ->]. auto.
Qed.

Lemma main_not_linux fuel (h : Host) :
  platform_system proc <> "Linux" ->
  main sys proc (S fuel) h
  = (Ok (Some 2%Z), h,
     banner :: platform_events proc (verbose (parse_args proc))
       ++ events_of (unsupported_platform_notice h)).
Proof.
  intros HL. apply String.eqb_neq in HL.
  cbn [main]. cbv zeta. run_monad. rewrite check_platform_run.
  cbv beta iota. rewrite HL. cbn [negb]. unfold unsupported_platform_notice.
  run_monad. cbn [events_of snd app]. rewrite ?app_nil_r. reflexivity.
Qed.

Lemma auto_install_no_manager (h : Host) :
  (forall name, In name (map fst package_managers) ->
                found sys h name = false) ->
  auto_install sys h
  = (Ok false, h,
     attempting :: map Which (map fst package_managers) ++ [unable]).
Proof.
  intros Hn. rewrite auto_install_run.
  now rewrite (first_found_none _ _ Hn).
Qed.

Lemma passed_over_no_answer o : passed_over o = true -> answers_version o = None.
Proof.
  destruct o as [rc out|e]; cbn; [|reflexivity].
  now destruct ((rc =? 0)%Z && Text.truthy (Text.strip out)).
Qed.

Lemma version_events_passed_over answer command before rest :
  forallb (fun f => passed_over (answer [command; f])) before = true ->
  version_events answer command (before ++ rest)
  = map (fun f => Run [command; f]) before
    ++ version_events answer command rest.
Proof.
  induction before as [|f before IH]; cbn [forallb app map version_events];
    [reflexivity|].
  intros H. apply andb_true_iff in H as [Hf Hb].
  rewrite (passed_over_no_answer _ Hf), Hf, (IH Hb). reflexivity.
Qed.


(** [shutil.which] answers [None] or a path, which is never empty; on such
    answers "found" is "resolved to a path". *)
Lemma found_iff_resolved (h : Host) name :
  which sys h name <> Some EmptyString ->
  (found sys h name = true <-> which sys h name <> None).
Proof.
  unfold found. destruct (which sys h name) as [[|c s]|]; cbn;
    intros H; split; congruence.
Qed.

(** ** The claims *)

(** C1. When the platform check fails (the operating system is not Linux)
    the driver exits with code 2 and leaves the host as it is; the platform
    query is its only call to the outside world, so DISPLAY is not read and
    no tool is searched or run, and the failed platform check is the only
    check reported. *)
Theorem unsupported_platform_exits_2 fuel (h : Host) :
  platform_system proc <> "Linux" ->
  result_of (main sys proc (S fuel) h) = Ok (Some 2%Z)
  /\ host_of (main sys proc (S fuel) h) = h
  /\ probes (events_of (main sys proc (S fuel) h)) = [PlatformSystem]
  /\ verdicts check_names (events_of (main sys proc (S fuel) h))
     = [("Platform", false)].
Proof.
  intros HL. rewrite (main_not_linux fuel h HL).
  apply String.eqb_neq in HL.
  cbn [result_of host_of events_of fst snd].
  repeat split.
  - cbn [probes filter]. fold (probes (platform_events proc (verbose (parse_args proc))
                                 ++ events_of (unsupported_platform_notice h))).
    rewrite probes_app. unfold platform_events.
    cbn [probes filter].
    fold (probes (map Print (check_lines "Platform"
                    (platform_system proc =? "Linux")%string
                    (platform_message proc (verbose (parse_args proc)))
                    (verbose (parse_args proc))))).
    now rewrite probes_map_Print.
  - change (banner :: ?l) with ([banner] ++ l).
    rewrite !verdicts_app, verdicts_platform_events, HL. reflexivity.
Qed.

(** C3. When the platform check, the display check and both tool checks
    pass, the driver exits with code 0; it leaves the host as it is and
    reports the four checks as passed. *)
Theorem all_checks_pass_exits_0 fuel (h : Host) :
  platform_system proc = "Linux" ->
  display_set proc ->
  which sys h "xdotool" <> None ->
  which sys h "import" <> None ->
  result_of (main sys proc (S fuel) h) = Ok (Some 0%Z)
  /\ host_of (main sys proc (S fuel) h) = h
  /\ verdicts check_names (events_of (main sys proc (S fuel) h))
     = [("Platform", true); ("DISPLAY variable", true);
        ("xdotool", true); ("import", true)].
Proof.
  intros HL HD HX HI.
  apply display_ok_iff in HD. apply tool_ok_iff in HX, HI.
  rewrite (main_linux fuel h HL). cbv zeta.
  fold (display_ok proc). fold (tool_ok sys h "xdotool").
  fold (tool_ok sys h "import").
  rewrite HD, HX, HI. cbn [andb]. rewrite print_summary_passed.
  cbn [result_of host_of events_of fst snd]. repeat split.
  change (banner :: ?l) with ([banner] ++ l).
  rewrite !verdicts_app, verdicts_platform_events, verdicts_display_events.
  rewrite !verdicts_tool_events by (cbn; auto).
  rewrite HL, HD, HX, HI. reflexivity.
Qed.

(** C5. Each of the four checks records "passed", in the value it returns
    and in the line it prints, exactly when its condition holds: the platform
    check when the operating system is Linux, the display check when DISPLAY
    is set to a non-empty value, a tool check when the search of the
    executable path resolves the command name. *)
Theorem checks_record_their_conditions :
  (forall verbose (h : Host),
      exists passed,
        result_of (check_platform proc verbose h) = Ok passed
        /\ verdicts check_names (events_of (check_platform proc verbose h))
           = [("Platform", passed)]
        /\ (passed = true <-> platform_system proc = "Linux"))
  /\ (forall verbose (h : Host),
         exists passed,
           result_of (check_display proc verbose h) = Ok passed
           /\ verdicts check_names (events_of (check_display proc verbose h))
              = [("DISPLAY variable", passed)]
           /\ (passed = true <-> display_set proc))
  /\ (forall command verbose (h : Host),
         exists passed,
           result_of (check_command sys command verbose h)
           = Ok (passed, which sys h command)
           /\ verdicts [command]
                (events_of (check_command sys command verbose h))
              = [(command, passed)]
           /\ (passed = true <-> which sys h command <> None)).
Proof.
  split; [|split].
  - intros verbose h. rewrite check_platform_run.
    exists (platform_system proc =? "Linux")%string.
    cbn [result_of events_of fst snd]. split; [reflexivity|]. split.
    + apply verdicts_platform_events.
    + apply String.eqb_eq.
  - intros verbose h. rewrite check_display_run.
    exists (display_ok proc).
    cbn [result_of events_of fst snd]. split; [reflexivity|]. split.
    + apply verdicts_display_events.
    + apply display_ok_iff.
  - intros command verbose h. rewrite check_command_run.
    exists (tool_ok sys h command).
    cbn [result_of events_of fst snd]. split; [reflexivity|]. split.
    + unfold command_events.
      rewrite verdicts_cons_probe by discriminate.
      rewrite verdicts_one_name, line_mark_check_lines. reflexivity.
    + apply tool_ok_iff.
Qed.

(** C10. The pair [check_command] returns holds the result of the search as
    its path, and its flag is true exactly when that path is not [None]. *)
Theorem check_command_available_iff_path command verbose (h : Host) :
  exists available path,
    result_of (check_command sys command verbose h) = Ok (available, path)
    /\ path = which sys h command
    /\ (available = true <-> path <> None).
Proof.
  rewrite check_command_run.
  exists (is_not_none (which sys h command)), (which sys h command).
  cbn [result_of fst]. repeat split.
  - destruct (which sys h command); cbn; congruence.
  - destruct (which sys h command); cbn; congruence.
Qed.

(** C6. [get_install_command] searches the package managers in the order
    apt-get, dnf, pacman, yum, stops at the first one found and returns its
    install command line, which names xdotool and the imagemagick package;
    it returns [None] when none of the four is found. *)
Theorem get_install_command_first_found (h : Host) :
  map fst package_managers = ["apt-get"; "dnf"; "pacman"; "yum"]
  /\ exists plan tested,
      get_install_command sys h = (Ok plan, h, map Which tested)
      /\ match plan with
         | Some line =>
             exists before name after,
               package_managers = before ++ (name, line) :: after
               /\ forallb (fun m => negb (found sys h (fst m))) before = true
               /\ found sys h name = true
               /\ tested = map fst before ++ [name]
               /\ names_both_tools line = true
         | None =>
             forallb (fun m => negb (found sys h (fst m))) package_managers
             = true
             /\ tested = map fst package_managers
         end.
Proof.
  split; [reflexivity|].
  exists (fst (first_found (found sys h) package_managers)),
         (snd (first_found (found sys h) package_managers)).
  split; [apply get_install_command_run|].
  pose proof (first_found_split (found sys h) package_managers) as S.
  destruct (first_found (found sys h) package_managers) as [[line|] tested];
    cbn [fst snd]; [|exact S].
  destruct S as (before & name & after & E & Hb & Hn & Ht).
  exists before, name, after. repeat split; try assumption.
  assert (Hin : In line (map snd package_managers)).
  { rewrite E, map_app. apply in_or_app. right. now left. }
  cbn in Hin. destruct Hin as [<-|[<-|[<-|[<-|[]]]]]; reflexivity.
Qed.

(** C7. In a run with --install in which none of the known package
    managers is found: [get_install_command] returns [None]; the installer
    runs no shell command and reports failure; the whole run of the driver
    contains no shell command; and where the installer is reached (on
    Linux, after a failed check) the driver goes on from the installer's
    failure to print the manual installation instructions, with the
    per-tool lines for the tools that are missing, and exits with code 1. *)
Theorem no_package_manager_falls_back fuel (h : Host) :
  (forall name, In name (map fst package_managers) ->
                found sys h name = false) ->
  install (parse_args proc) = true ->
  result_of (get_install_command sys h) = Ok None
  /\ result_of (auto_install sys h) = Ok false
  /\ host_of (auto_install sys h) = h
  /\ shell_commands (events_of (auto_install sys h)) = []
  /\ shell_commands (events_of (main sys proc (S fuel) h)) = []
  /\ (platform_system proc = "Linux" ->
      display_ok proc && tool_ok sys h "xdotool" && tool_ok sys h "import"
      = false ->
      result_of (main sys proc (S fuel) h) = Ok (Some 1%Z)
      /\ host_of (main sys proc (S fuel) h) = h
      /\ (exists before,
             events_of (main sys proc (S fuel) h)
             = before ++ events_of (auto_install sys h)
                 ++ install_failed_notice
                 :: events_of (manual_instructions sys proc (display_ok proc)
                                 (tool_ok sys h "xdotool")
                                 (tool_ok sys h "import") h))
      /\ In instructions_header (events_of (main sys proc (S fuel) h))
      /\ (tool_ok sys h "xdotool" = false ->
          In (Print "    Install xdotool using your package manager")
             (events_of (main sys proc (S fuel) h)))
      /\ (tool_ok sys h "import" = false ->
          In (Print "    Install imagemagick using your package manager")
             (events_of (main sys proc (S fuel) h)))).
Proof.
  intros Hn HI.
  pose proof (first_found_none _ _ Hn) as FF.
  assert (FN : fst (first_found (found sys h) package_managers) = None)
    by now rewrite FF.
  split; [rewrite get_install_command_run; now rewrite FF|].
  rewrite (auto_install_no_manager h Hn).
  split; [reflexivity|]. split; [reflexivity|]. split; [reflexivity|].
  set (d := display_ok proc). set (x := tool_ok sys h "xdotool").
  set (i := tool_ok sys h "import").
  set (v := verbose (parse_args proc)).
  set (checks := banner :: platform_events proc v ++ display_events proc v
                 ++ tool_events sys h "xdotool" v
                 ++ tool_events sys h "import" v).
  assert (SC : shell_commands checks = []).
  { unfold checks. change (banner :: ?l) with ([banner] ++ l).
    rewrite !shell_commands_app, shell_commands_platform_events,
      shell_commands_display_events, !shell_commands_tool_events.
    reflexivity. }
  assert (CH : forall t,
             banner :: platform_events proc v ++ display_events proc v
               ++ tool_events sys h "xdotool" v
               ++ tool_events sys h "import" v ++ t
             = checks ++ t).
  { intros t. unfold checks. cbn [app]. now rewrite <- !app_assoc. }
  set (mi := events_of (manual_instructions sys proc d x i h)).
  destruct (manual_instructions_no_manager d x i h FN) as (SH & MX & MI).
  destruct (manual_instructions_header d x i h) as (rest & HH).
  fold mi in SH, MX, MI, HH.
  set (ai := attempting :: map Which (map fst package_managers) ++ [unable]).
  assert (EF : platform_system proc = "Linux" -> d && x && i = false ->
               main sys proc (S fuel) h
               = (Ok (Some 1%Z), h,
                  (checks ++ [Print EmptyString; missing_notice])
                    ++ ai ++ install_failed_notice :: mi)).
  { intros HL HF. rewrite (main_linux fuel h HL). cbv zeta.
    fold (display_ok proc) (tool_ok sys h "xdotool") (tool_ok sys h "import").
    fold d x i. rewrite HF, print_summary_failed, HI.
    rewrite (auto_install_no_manager h Hn).
    cbn [result_of host_of events_of fst snd]. fold ai mi v.
    rewrite CH. f_equal. now rewrite <- app_assoc. }
  split.
  - destruct (String.eqb_spec (platform_system proc) "Linux") as [HL|HL].
    + destruct (d && x && i) eqn:HF.
      * rewrite (main_linux fuel h HL). cbv zeta.
        fold (display_ok proc) (tool_ok sys h "xdotool")
          (tool_ok sys h "import").
        fold d x i. rewrite HF, print_summary_passed.
        cbn [result_of host_of events_of fst snd]. fold v.
        now rewrite CH, shell_commands_app, SC.
      * rewrite (EF HL eq_refl). cbn [events_of snd].
        rewrite !shell_commands_app, SC. cbn [shell_commands flat_map app].
        fold (shell_commands mi). rewrite SH, app_nil_r.
        reflexivity.
    + rewrite (main_not_linux fuel h HL). cbn [events_of snd].
      change (banner :: ?l) with ([banner] ++ l).
      now rewrite !shell_commands_app, shell_commands_platform_events.
  - intros HL HF. rewrite (EF HL HF).
    cbn [result_of host_of events_of fst snd].
    assert (IN : forall e, In e mi ->
                   In e ((checks ++ [Print EmptyString; missing_notice])
                           ++ ai ++ install_failed_notice :: mi)).
    { intros e He. apply in_or_app. right. apply in_or_app. right.
      now right. }
    repeat split.
    + eexists. reflexivity.
    + apply IN. rewrite HH. now left.
    + intros E. apply IN, MX, E.
    + intros E. apply IN, MI, E.
Qed.

(** C4, as the code has it.  On Linux, when exactly one of the display
    check, the xdotool check and the import check fails, and either
    auto-install was not requested or the installer reports failure, the
    driver exits with code 1. *)
Theorem one_failed_check_exits_1 fuel (h : Host) :
  platform_system proc = "Linux" ->
  failures [display_ok proc; tool_ok sys h "xdotool"; tool_ok sys h "import"]
  = 1 ->
  install (parse_args proc) = false
  \/ result_of (auto_install sys h) = Ok false ->
  result_of (main sys proc (S fuel) h) = Ok (Some 1%Z).
Proof.
  intros HL HF HI.
  rewrite (main_linux fuel h HL). cbv zeta.
  fold (display_ok proc) (tool_ok sys h "xdotool") (tool_ok sys h "import").
  assert (E : display_ok proc && tool_ok sys h "xdotool"
              && tool_ok sys h "import" = false).
  { destruct (display_ok proc), (tool_ok sys h "xdotool"),
      (tool_ok sys h "import"); cbn in HF; try reflexivity; discriminate. }
  rewrite E, print_summary_failed.
  destruct (install (parse_args proc)); [|reflexivity].
  destruct HI as [HI|HI]; [discriminate|].
  destruct (auto_install sys h) as [[r h'] l]. cbn in HI. subst r.
  reflexivity.
Qed.

(** C9, as the code has it.  For a found tool in verbose mode the version
    probe tries the flags in order.  It stops at the first invocation that
    exits with status zero and whose standard output is not blank, and
    prints the first line of that output with the surrounding whitespace
    stripped.  A non-zero exit status, blank output, a timeout or a missing
    executable is passed over in silence and the next flag is tried; any
    other exception ends the probing in silence.  Whatever the invocations
    do, [check_command_version] returns normally and leaves the host as it
    is. *)
Theorem version_probe_contract command path (h : Host) :
  truthy_opt path = true ->
  (forall path' verbose,
      result_of (check_command_version sys command path' verbose h) = Ok tt
      /\ host_of (check_command_version sys command path' verbose h) = h)
  /\ (forall before flag after out,
         version_flags = before ++ flag :: after ->
         forallb (fun f => passed_over (run_version sys h [command; f])) before
         = true ->
         run_version sys h [command; flag] = Completed 0 out ->
         Text.strip out <> EmptyString ->
         events_of (check_command_version sys command path true h)
         = map (fun f => Run [command; f]) (before ++ [flag])
           ++ [version_line (Text.first_line (Text.strip out))])
  /\ (forall before flag after e,
         version_flags = before ++ flag :: after ->
         forallb (fun f => passed_over (run_version sys h [command; f])) before
         = true ->
         run_version sys h [command; flag] = RunRaised e ->
         kind e = OtherError ->
         events_of (check_command_version sys command path true h)
         = map (fun f => Run [command; f]) (before ++ [flag]))
  /\ (forallb (fun f => passed_over (run_version sys h [command; f]))
        version_flags = true ->
      events_of (check_command_version sys command path true h)
      = map (fun f => Run [command; f]) version_flags).
Proof.
  intros HP. split; [|split; [|split]].
  - intros path' verbose. now rewrite check_command_version_run.
  - intros before flag after out Hs Hb Ho Hout.
    rewrite check_command_version_run, HP, Hs. cbn [andb events_of snd].
    rewrite (version_events_passed_over _ _ _ _ Hb).
    cbn [version_events]. unfold answers_version. rewrite Ho.
    destruct (Text.strip out) as [|c s] eqn:E; [congruence|].
    cbn [Z.eqb andb Text.truthy]. rewrite map_app, <- app_assoc. reflexivity.
  - intros before flag after e Hs Hb Ho He.
    rewrite check_command_version_run, HP, Hs. cbn [andb events_of snd].
    rewrite (version_events_passed_over _ _ _ _ Hb).
    cbn [version_events]. unfold answers_version, passed_over.
    rewrite Ho, He. now rewrite map_app.
  - intros Hb.
    rewrite check_command_version_run, HP. cbn [andb events_of snd].
    rewrite <- (app_nil_r version_flags) at 1.
    rewrite (version_events_passed_over _ _ _ _ Hb). cbn [version_events].
    apply app_nil_r.
Qed.

(** With the literal "--install" among the arguments the driver never calls
    itself: one level of [main] gives the whole run. *)
Lemma literal_install_flag_never_reruns fuel (h : Host) :
  Text.mem "--install" (sys_argv proc) = true ->
  main sys proc (S fuel) h = main sys proc 1 h.
Proof.
  intros HA.
  destruct (String.eqb_spec (platform_system proc) "Linux") as [HL|HL].
  - rewrite !(main_linux _ h HL). cbv zeta.
    destruct (display_ok proc && tool_ok sys h "xdotool"
              && tool_ok sys h "import") eqn:E;
      unfold display_ok, tool_ok in E; rewrite E.
    + now rewrite !print_summary_passed.
    + rewrite !print_summary_failed, HA. cbn [negb]. reflexivity.
  - now rewrite !(main_not_linux _ h HL).
Qed.

End Properties.

(** ** Verbose mode *)

Section Verbose.

Context {Host : Type} (sys : System Host).

Lemma manual_instructions_verbose b p d x i (h : Host) :
  manual_instructions sys (with_verbose b p) d x i h
  = manual_instructions sys p d x i h.
Proof. reflexivity. Qed.

Lemma verdicts_checks_verbose b p (h : Host) :
  verdicts check_names
    (banner :: platform_events (with_verbose b p) b
       ++ display_events (with_verbose b p) b
       ++ tool_events sys h "xdotool" b ++ tool_events sys h "import" b)
  = [("Platform", (platform_system p =? "Linux")%string);
     ("DISPLAY variable", display_ok p);
     ("xdotool", tool_ok sys h "xdotool");
     ("import", tool_ok sys h "import")].
Proof.
  change (banner :: ?l) with ([banner] ++ l).
  rewrite !verdicts_app, verdicts_platform_events, verdicts_display_events.
  rewrite !verdicts_tool_events by (cbn; auto).
  reflexivity.
Qed.

Lemma verdicts_checks_tail names e (a b c d t : list Event) :
  verdicts names (e :: a ++ b ++ c ++ d ++ t)
  = verdicts names (e :: a ++ b ++ c ++ d) ++ verdicts names t.
Proof.
  change (e :: a ++ b ++ c ++ d ++ t) with ([e] ++ a ++ b ++ c ++ d ++ t).
  change (e :: a ++ b ++ c ++ d) with ([e] ++ a ++ b ++ c ++ d).
  rewrite !verdicts_app. now rewrite <- !app_assoc.
Qed.

Lemma print_summary_verbose p all d x i (r1 r2 : M (option Z)) (h : Host) :
  (forall h', same_outcome (r1 h') (r2 h')) ->
  same_outcome
    (print_summary sys (with_verbose true p) all d x i r1 h)
    (print_summary sys (with_verbose false p) all d x i r2 h).
Proof.
  intros HR. destruct all.
  - rewrite !print_summary_passed. repeat split.
  - rewrite !print_summary_failed.
    change (install (parse_args (with_verbose true p)))
      with (install (parse_args p)).
    change (install (parse_args (with_verbose false p)))
      with (install (parse_args p)).
    change (sys_argv (with_verbose true p)) with (sys_argv p).
    change (sys_argv (with_verbose false p)) with (sys_argv p).
    rewrite !manual_instructions_verbose.
    destruct (install (parse_args p)); [|repeat split].
    destruct (auto_install sys h) as [[[[]|e] h'] l];
      [|repeat split|repeat split].
    destruct (negb (Text.mem "--install" (sys_argv p))); [|repeat split].
    destruct (HR h') as (R1 & R2 & R3).
    unfold same_outcome. cbn [result_of host_of events_of fst snd].
    repeat split; try assumption.
    change (Print EmptyString :: missing_notice :: l ++ rerun_notice :: ?t)
      with ((Print EmptyString :: missing_notice :: l) ++ [rerun_notice] ++ t).
    rewrite !verdicts_app. now f_equal; f_equal.
Qed.

(** C8. Started with or without the verbose flag on the same machine, the
    driver reports the same pass/fail result for every check, returns the
    same exit code and leaves the same host. *)
Theorem verbose_changes_no_outcome p fuel (h : Host) :
  same_outcome (main sys (with_verbose true p) fuel h)
               (main sys (with_verbose false p) fuel h).
Proof.
  revert h. induction fuel as [|fuel IH]; intros h; [repeat split|].
  destruct (String.eqb_spec (platform_system p) "Linux") as [HL|HL].
  - rewrite (main_linux sys (with_verbose true p) fuel h HL),
      (main_linux sys (with_verbose false p) fuel h HL). cbv zeta.
    change (display_value (with_verbose true p)) with (display_value p).
    change (display_value (with_verbose false p)) with (display_value p).
    change (verbose (parse_args (with_verbose true p))) with true.
    change (verbose (parse_args (with_verbose false p))) with false.
    set (all := Text.truthy (display_value p)
                && is_not_none (which sys h "xdotool")
                && is_not_none (which sys h "import")).
    destruct (print_summary_verbose p all (Text.truthy (display_value p))
                (is_not_none (which sys h "xdotool"))
                (is_not_none (which sys h "import")) _ _ h IH)
      as (R1 & R2 & R3).
    unfold same_outcome. cbn [result_of host_of events_of fst snd].
    repeat split; try assumption.
    rewrite !verdicts_checks_tail, !verdicts_checks_verbose. now f_equal.
  - rewrite (main_not_linux sys (with_verbose true p) fuel h HL),
      (main_not_linux sys (with_verbose false p) fuel h HL).
    unfold same_outcome. cbn [result_of host_of events_of fst snd].
    repeat split.
    change (banner :: ?l) with ([banner] ++ l).
    rewrite !verdicts_app, !verdicts_platform_events. reflexivity.
Qed.

End Verbose.

(** ** The claims on sample machines *)

Lemma unsupported_platform_exits_2_witness :
  let p := Demo.process "Darwin" (Some ":0") ["-v"]
             {| verbose := true; install := false |} in
  let h := Demo.host ["xdotool"; "import"] in
  platform_system p <> "Linux"
  /\ result_of (main Demo.sys p 1 h) = Ok (Some 2%Z)
  /\ host_of (main Demo.sys p 1 h) = h
  /\ probes (events_of (main Demo.sys p 1 h)) = [PlatformSystem]
  /\ verdicts check_names (events_of (main Demo.sys p 1 h))
     = [("Platform", false)].
Proof.
  intros p h.
  assert (H : platform_system p <> "Linux") by discriminate.
  split; [exact H|].
  exact (unsupported_platform_exits_2 Demo.sys p 0 h H).
Defined.

Lemma all_checks_pass_exits_0_witness :
  let p := Demo.process "Linux" (Some ":0") ["-v"]
             {| verbose := true; install := false |} in
  let h := Demo.host ["xdotool"; "import"] in
  platform_system p = "Linux"
  /\ display_set p
  /\ which Demo.sys h "xdotool" <> None
  /\ which Demo.sys h "import" <> None
  /\ result_of (main Demo.sys p 1 h) = Ok (Some 0%Z)
  /\ host_of (main Demo.sys p 1 h) = h
  /\ verdicts check_names (events_of (main Demo.sys p 1 h))
     = [("Platform", true); ("DISPLAY variable", true);
        ("xdotool", true); ("import", true)].
Proof.
  intros p h.
  assert (HL : platform_system p = "Linux") by reflexivity.
  assert (HD : display_set p).
  { exists ":0". split; [reflexivity|discriminate]. }
  assert (HX : which Demo.sys h "xdotool" <> None) by discriminate.
  assert (HI : which Demo.sys h "import" <> None) by discriminate.
  repeat (split; [assumption|]).
  exact (all_checks_pass_exits_0 Demo.sys p 0 h HL HD HX HI).
Defined.

Lemma one_failed_check_exits_1_witness :
  let p := Demo.process "Linux" (Some ":0") []
             {| verbose := false; install := false |} in
  let h := Demo.host ["apt-get"; "import"] in
  platform_system p = "Linux"
  /\ failures [display_ok p; tool_ok Demo.sys h "xdotool";
               tool_ok Demo.sys h "import"] = 1
  /\ (install (parse_args p) = false
      \/ result_of (auto_install Demo.sys h) = Ok false)
  /\ result_of (main Demo.sys p 1 h) = Ok (Some 1%Z).
Proof.
  intros p h.
  assert (HL : platform_system p = "Linux") by reflexivity.
  assert (HF : failures [display_ok p; tool_ok Demo.sys h "xdotool";
                         tool_ok Demo.sys h "import"] = 1) by reflexivity.
  assert (HI : install (parse_args p) = false
               \/ result_of (auto_install Demo.sys h) = Ok false)
    by (left; reflexivity).
  repeat (split; [assumption|]).
  exact (one_failed_check_exits_1 Demo.sys p 0 h HL HF HI).
Defined.

(** C4 as stated fails: started as [check_dependencies.py --inst] (argparse
    reads the abbreviation as --install) on a Linux machine with DISPLAY
    set and import present, where only the xdotool check fails and apt-get
    installs it, the driver runs the checks again and exits with code 0. *)
Lemma one_failed_check_can_exit_0 :
  let p := Demo.process "Linux" (Some ":0") ["--inst"]
             {| verbose := false; install := true |} in
  let h := Demo.host ["apt-get"; "import"] in
  platform_system p = "Linux"
  /\ failures [display_ok p; tool_ok Demo.sys h "xdotool";
               tool_ok Demo.sys h "import"] = 1
  /\ result_of (main Demo.sys p 2 h) = Ok (Some 0%Z)
  /\ result_of (main Demo.sys p 2 h) <> Ok (Some 1%Z).
Proof.
  intros p h. repeat split; try reflexivity. vm_compute. discriminate.
Qed.

(** C2 on the code.  Started as [check_dependencies.py --install] on a
    Linux machine with DISPLAY set and import present, where the xdotool
    check fails and apt-get installs it with exit status zero: the driver
    prints that it is re-running the checks and returns 1 at once.  Every
    check was made only once, although the checks would now all pass: a run
    started afresh on the host the installer left exits with code 0. *)
Theorem literal_install_flag_skips_rerun :
  let p := Demo.process "Linux" (Some ":0") ["--install"]
             {| verbose := false; install := true |} in
  let h := Demo.host ["apt-get"; "import"] in
  let run := main Demo.sys p 3 h in
  result_of (auto_install Demo.sys h) = Ok true
  /\ result_of run = Ok (Some 1%Z)
  /\ probes (events_of run)
     = [PlatformSystem; EnvironGet "DISPLAY"; Which "xdotool"; Which "import";
        Which "apt-get";
        Shell "sudo apt-get update && sudo apt-get install -y xdotool imagemagick"]
  /\ last (events_of run) banner = rerun_notice
  /\ result_of (main Demo.sys p 3 (host_of run)) = Ok (Some 0%Z).
Proof. repeat split. Qed.

Lemma no_package_manager_falls_back_witness :
  let p := Demo.process "Linux" None ["--install"]
             {| verbose := false; install := true |} in
  let h := Demo.host ["import"] in
  (forall name, In name (map fst package_managers) ->
                found Demo.sys h name = false)
  /\ install (parse_args p) = true
  /\ result_of (auto_install Demo.sys h) = Ok false
  /\ shell_commands (events_of (main Demo.sys p 1 h)) = []
  /\ result_of (main Demo.sys p 1 h) = Ok (Some 1%Z)
  /\ In instructions_header (events_of (main Demo.sys p 1 h)).
Proof.
  intros p h.
  assert (HN : forall name, In name (map fst package_managers) ->
                            found Demo.sys h name = false).
  { intros name [<-|[<-|[<-|[<-|[]]]]]; reflexivity. }
  assert (HI : install (parse_args p) = true) by reflexivity.
  repeat (split; [assumption|]).
  destruct (no_package_manager_falls_back Demo.sys p 0 h HN HI)
    as (_ & A & _ & _ & B & C).
  destruct (C eq_refl eq_refl) as (R & _ & _ & HH & _).
  repeat split; assumption.
Defined.

(** C9 as stated fails: the first invocation of the tool exits with status
    zero and its output is not empty (a line feed), yet the probe does not
    stop there; it goes on to the next flag and prints the version that
    one gives. *)
Lemma version_probe_passes_over_blank_output :
  let h := Demo.host ["xdotool"] in
  run_version Demo.sys h ["xdotool"; "--version"] = Completed 0 LF
  /\ LF <> EmptyString
  /\ events_of (check_command_version Demo.sys "xdotool"
                  (which Demo.sys h "xdotool") true h)
     = [Run ["xdotool"; "--version"]; Run ["xdotool"; "-version"];
        version_line "xdotool 1.0"].
Proof. repeat split. discriminate. Qed.

Lemma version_probe_contract_witness :
  let h := Demo.host ["xdotool"] in
  truthy_opt (which Demo.sys h "xdotool") = true
  /\ events_of (check_command_version Demo.sys "xdotool"
                  (which Demo.sys h "xdotool") true h)
     = [Run ["xdotool"; "--version"]; Run ["xdotool"; "-version"];
        version_line "xdotool 1.0"].
Proof.
  intros h.
  assert (HP : truthy_opt (which Demo.sys h "xdotool") = true) by reflexivity.
  split; [exact HP|].
  destruct (version_probe_contract Demo.sys "xdotool"
              (which Demo.sys h "xdotool") h HP) as (_ & A & _).
  apply (A ["--version"] "-version" ["version"; "-V"]
           ("xdotool 1.0" +:+ LF +:+ "build 7" +:+ LF)); try reflexivity.
  discriminate.
Defined.

(** An exception other than a timeout or a missing executable ends the
    probing at once and in silence: the remaining flags are not tried. *)
Lemma version_probe_stops_at_other_exception :
  let h := {| Demo.on_path := ["xdotool"];
              Demo.answer := Demo.permission_denied |} in
  check_command_version Demo.sys "xdotool" (which Demo.sys h "xdotool") true h
  = (Ok tt, h, [Run ["xdotool"; "--version"]]).
Proof. reflexivity. Qed.

(** ** Further properties of the script *)

Section Further.

Context {Host : Type} (sys : System Host) (proc : Process).


Lemma summary_failed_result d x i rerun (h : Host) :
  result_of (print_summary sys proc false d x i rerun h)
  = (if reruns sys proc h
     then result_of (rerun (host_of (auto_install sys h)))
     else Ok (Some 1%Z))
  /\ host_of (print_summary sys proc false d x i rerun h)
     = (if reruns sys proc h
        then host_of (rerun (host_of (auto_install sys h)))
        else if install (parse_args proc) then host_of (auto_install sys h)
        else h).
Proof.
  rewrite print_summary_failed. unfold reruns, installs.
  destruct (install (parse_args proc)); cbn [andb]; [|split; reflexivity].
  destruct (auto_install_total sys h) as (b & h' & l & ->).
  cbn [result_of host_of fst snd].
  destruct b; cbn [andb]; [|split; reflexivity].
  destruct (negb (Text.mem "--install" (sys_argv proc))); split; reflexivity.
Qed.

(** X2. The exit code of the driver, and the host it leaves, as the code
    decides them: 2 off Linux; 0 when the three checks pass; after a failed
    check, the answer of the driver run again on the host the installer
    left when --install was given, the installer succeeded and the literal
    "--install" is not among the arguments, and 1 otherwise. *)
Theorem exit_code_equation fuel (h : Host) :
  result_of (main sys proc (S fuel) h)
  = (if negb (platform_system proc =? "Linux")%string then Ok (Some 2%Z)
     else if all_ok sys proc h then Ok (Some 0%Z)
     else if reruns sys proc h
          then result_of (main sys proc fuel (host_of (auto_install sys h)))
          else Ok (Some 1%Z))
  /\ host_of (main sys proc (S fuel) h)
     = (if negb (platform_system proc =? "Linux")%string || all_ok sys proc h
        then h
        else if reruns sys proc h
             then host_of (main sys proc fuel (host_of (auto_install sys h)))
             else if install (parse_args proc)
                  then host_of (auto_install sys h)
                  else h).
Proof.
  destruct (String.eqb_spec (platform_system proc) "Linux") as [HL|HL];
    cbn [negb orb].
  - rewrite (main_linux sys proc fuel h HL). cbv zeta.
    cbn [result_of host_of fst snd].
    fold (display_ok proc) (tool_ok sys h "xdotool") (tool_ok sys h "import").
    fold (all_ok sys proc h).
    destruct (all_ok sys proc h).
    + rewrite print_summary_passed. split; reflexivity.
    + apply summary_failed_result.
  - rewrite (main_not_linux sys proc fuel h HL). split; reflexivity.
Qed.

Ltac run_steps := unfold bind, print, ret; cbv beta iota.

Lemma allowed_prints lines : Forall (allowed proc) (map Print lines).
Proof. induction lines; cbn; constructor; cbn; auto. Qed.

Lemma first_found_tested is_found ms :
  incl (snd (first_found is_found ms)) (map fst ms).
Proof.
  induction ms as [|[name line] rest IH]; cbn; [apply incl_refl|].
  destruct (is_found name); cbn.
  - intros n [<-|[]]. now left.
  - destruct (first_found is_found rest) as [r tested]. cbn in *.
    intros n [<-|Hn]; [now left|right; now apply IH].
Qed.

Lemma allowed_manager_searches (h : Host) :
  Forall (allowed proc)
    (map Which (snd (first_found (found sys h) package_managers))).
Proof.
  apply Forall_forall. intros e He. apply in_map_iff in He as (n & <- & Hn).
  apply first_found_tested in Hn. cbn in Hn. cbn.
  destruct Hn as [<-|[<-|[<-|[<-|[]]]]]; auto 10.
Qed.

Lemma allowed_version_events answer command flags :
  verbose (parse_args proc) = true ->
  In command ["xdotool"; "import"] ->
  incl flags version_flags ->
  Forall (allowed proc) (version_events answer command flags).
Proof.
  intros HV HC. induction flags as [|flag rest IH]; intros HI;
    cbn [version_events]; [constructor|].
  constructor.
  - cbn. split; [exact HV|]. exists command, flag.
    repeat split; [exact HC|]. apply HI. now left.
  - destruct (answers_version (answer [command; flag])).
    + constructor; [exact I|constructor].
    + destruct (passed_over (answer [command; flag])); [|constructor].
      apply IH. intros f Hf. apply HI. now right.
Qed.

Lemma allowed_tool_events (h : Host) command :
  In command ["xdotool"; "import"] ->
  Forall (allowed proc)
    (tool_events sys h command (verbose (parse_args proc))).
Proof.
  intros HC. unfold tool_events, command_events. apply Forall_app. split.
  - constructor; [|apply allowed_prints].
    cbn. cbn in HC. destruct HC as [<-|[<-|[]]]; auto.
  - destruct (verbose (parse_args proc)) eqn:HV;
      rewrite ?andb_false_r; cbn [andb]; [|constructor].
    destruct (is_not_none (which sys h command) && true
              && truthy_opt (which sys h command)); [|constructor].
    apply allowed_version_events; [exact HV|exact HC|apply incl_refl].
Qed.

Lemma allowed_auto_install (h : Host) :
  install (parse_args proc) = true ->
  Forall (allowed proc) (events_of (auto_install sys h)).
Proof.
  intros HI. rewrite auto_install_run.
  destruct (fst (first_found (found sys h) package_managers)) as [line|] eqn:E.
  - cbv zeta.
    assert (HS : Forall (allowed proc)
                   (attempting
                      :: map Which
                           (snd (first_found (found sys h) package_managers))
                      ++ [Print ("Running: " +:+ line +:+ LF); Shell line])).
    { constructor; [exact I|]. apply Forall_app. split.
      - apply allowed_manager_searches.
      - constructor; [exact I|]. constructor; [|constructor].
        cbn. split; [exact HI|]. now apply first_found_line in E. }
    destruct (run_shell sys h line) as [[rc|e] h']; cbn [events_of snd];
      [exact HS|].
    apply Forall_app. split; [exact HS|]. constructor; [exact I|constructor].
  - cbn [events_of snd]. constructor; [exact I|]. apply Forall_app. split.
    + apply allowed_manager_searches.
    + constructor; [exact I|constructor].
Qed.

Lemma allowed_manual_instructions d x i (h : Host) :
  Forall (allowed proc) (events_of (manual_instructions sys proc d x i h)).
Proof.
  pose proof (allowed_manager_searches h) as HW.
  unfold manual_instructions.
  destruct d, x, i; cbn [negb orb]; run_steps;
    rewrite ?get_install_command_run; cbv beta iota;
    destruct (truthy_opt (fst (first_found (found sys h) package_managers)));
    cbn [events_of snd app];
    repeat first [ apply Forall_nil
                 | apply Forall_cons; [exact I|]
                 | apply Forall_app; split; [exact HW|]
                 | apply Forall_app; split ].
Qed.

(** X3. All the driver asks of the outside world, in any run: it prints;
    it queries the platform; it reads no environment variable but DISPLAY;
    it searches the path only for xdotool, import, apt-get, dnf, pacman and
    yum; it runs a tool only in verbose mode, and then only xdotool or
    import with one of the four version flags; it hands a command line to
    the shell only when --install was given, and then only one of the four
    install command lines. *)
Theorem outside_world_alphabet fuel (h : Host) :
  Forall (allowed proc) (events_of (main sys proc fuel h)).
Proof.
  revert h. induction fuel as [|fuel IH]; intros h; [constructor|].
  destruct (String.eqb_spec (platform_system proc) "Linux") as [HL|HL].
  - rewrite (main_linux sys proc fuel h HL). cbv zeta.
    cbn [events_of snd]. constructor; [exact I|].
    apply Forall_app; split;
      [constructor; [exact I|apply allowed_prints]|].
    apply Forall_app; split;
      [constructor; [reflexivity|apply allowed_prints]|].
    apply Forall_app; split; [apply allowed_tool_events; cbn; auto|].
    apply Forall_app; split; [apply allowed_tool_events; cbn; auto|].
    destruct (Text.truthy (display_value proc)
                && is_not_none (which sys h "xdotool")
                && is_not_none (which sys h "import")).
    + rewrite print_summary_passed. cbn.
      repeat (constructor; [exact I|]). constructor.
    + rewrite print_summary_failed.
      destruct (install (parse_args proc)) eqn:HI.
      * pose proof (allowed_auto_install h HI) as HA.
        destruct (auto_install sys h) as [[[[]|e] h'] l];
          cbn [events_of snd] in HA.
        -- destruct (negb (Text.mem "--install" (sys_argv proc)));
             cbn [events_of snd];
             (constructor; [exact I|]); (constructor; [exact I|]);
             (apply Forall_app; split; [exact HA|]);
             (constructor; [exact I|]); [apply IH|constructor].
        -- cbn [events_of snd].
           (constructor; [exact I|]); (constructor; [exact I|]).
           apply Forall_app; split; [exact HA|].
           constructor; [exact I|apply allowed_manual_instructions].
        -- cbn [events_of snd].
           (constructor; [exact I|]); (constructor; [exact I|]).
           exact HA.
      * cbn [events_of snd].
        (constructor; [exact I|]); (constructor; [exact I|]).
        apply allowed_manual_instructions.
  - rewrite (main_not_linux sys proc fuel h HL). cbn [events_of snd].
    constructor; [exact I|]. apply Forall_app. split.
    + constructor; [exact I|apply allowed_prints].
    + cbn. repeat (constructor; [exact I|]). constructor.
Qed.

Lemma allowed_no_shell l :
  install (parse_args proc) = false ->
  Forall (allowed proc) l -> shell_commands l = [].
Proof.
  intros HI. induction 1 as [|e l He _ IH]; [reflexivity|].
  destruct e; cbn in *; try exact IH.
  destruct He as [He _]. congruence.
Qed.

Lemma allowed_no_runs l :
  verbose (parse_args proc) = false ->
  Forall (allowed proc) l -> runs l = [].
Proof.
  intros HV. induction 1 as [|e l He _ IH]; [reflexivity|].
  destruct e; cbn in *; try exact IH.
  destruct He as [He _]. congruence.
Qed.

(** X4. Without --install the driver makes one round of checks and stops:
    deeper calls of [main] are never reached, the exit code is 2 off Linux,
    0 when the three checks pass and 1 otherwise, the host is left as it
    was and nothing is handed to the shell. *)
Theorem no_install_one_round fuel (h : Host) :
  install (parse_args proc) = false ->
  main sys proc (S fuel) h = main sys proc 1 h
  /\ result_of (main sys proc (S fuel) h) = Ok (Some (checks_code sys proc h))
  /\ host_of (main sys proc (S fuel) h) = h
  /\ shell_commands (events_of (main sys proc (S fuel) h)) = [].
Proof.
  intros HI. split; [|split; [|split]].
  - destruct (String.eqb_spec (platform_system proc) "Linux") as [HL|HL].
    + rewrite !(main_linux sys proc _ h HL). cbv zeta.
      destruct (Text.truthy (display_value proc)
                && is_not_none (which sys h "xdotool")
                && is_not_none (which sys h "import")).
      * now rewrite !print_summary_passed.
      * now rewrite !print_summary_failed, HI.
    + now rewrite !(main_not_linux sys proc _ h HL).
  - rewrite (proj1 (exit_code_equation fuel h)). unfold checks_code, reruns.
    rewrite HI. cbn [andb].
    destruct (negb (platform_system proc =? "Linux")%string); [reflexivity|].
    now destruct (all_ok sys proc h).
  - rewrite (proj2 (exit_code_equation fuel h)). unfold reruns.
    rewrite HI. cbn [andb].
    now destruct (negb (platform_system proc =? "Linux")%string
                  || all_ok sys proc h).
  - apply (allowed_no_shell _ HI), outside_world_alphabet.
Qed.

(** X5. Without the verbose flag the driver starts no tool at all, in any
    round of checks. *)
Theorem quiet_mode_runs_no_tool fuel (h : Host) :
  verbose (parse_args proc) = false ->
  runs (events_of (main sys proc fuel h)) = [].
Proof.
  intros HV. apply (allowed_no_runs _ HV), outside_world_alphabet.
Qed.


(** X7. What the exit codes 0 and 1 say.  When the driver returns 0, the
    platform is Linux and the three checks pass on the host it leaves.
    When it returns 1, the platform is Linux and one of the three checks
    failed on the host it started on. *)
Theorem exit_code_meaning fuel (h : Host) :
  (result_of (main sys proc fuel h) = Ok (Some 0%Z) ->
   platform_system proc = "Linux"
   /\ all_ok sys proc (host_of (main sys proc fuel h)) = true)
  /\ (result_of (main sys proc fuel h) = Ok (Some 1%Z) ->
      platform_system proc = "Linux" /\ all_ok sys proc h = false).
Proof.
  split.
  - revert h. induction fuel as [|fuel IH]; intros h; [discriminate|].
    rewrite (proj1 (exit_code_equation fuel h)),
      (proj2 (exit_code_equation fuel h)).
    destruct (String.eqb_spec (platform_system proc) "Linux") as [HL|HL];
      cbn [negb orb]; [|discriminate].
    destruct (all_ok sys proc h) eqn:HA; [auto|].
    destruct (reruns sys proc h); [|discriminate].
    apply IH.
  - destruct fuel as [|fuel]; [discriminate|].
    rewrite (proj1 (exit_code_equation fuel h)).
    destruct (String.eqb_spec (platform_system proc) "Linux") as [HL|HL];
      cbn [negb]; [|discriminate].
    destruct (all_ok sys proc h); [discriminate|auto].
Qed.

Lemma shell_commands_searches names : shell_commands (map Which names) = [].
Proof. induction names; cbn; auto. Qed.

(** X8. The installer, whatever the shell does: it never raises; it hands
    the shell exactly the command line [get_install_command] chose, or
    nothing when there is none; it leaves the host the shell left; it
    reports success exactly when a command line was chosen and the shell
    completed it with exit status zero; and an exception of the shell is
    printed with its message. *)
Theorem auto_install_contract (h : Host) plan :
  result_of (get_install_command sys h) = Ok plan ->
  (exists ok, result_of (auto_install sys h) = Ok ok)
  /\ shell_commands (events_of (auto_install sys h))
     = match plan with Some line => [line] | None => [] end
  /\ host_of (auto_install sys h)
     = match plan with Some line => snd (run_shell sys h line) | None => h end
  /\ (result_of (auto_install sys h) = Ok true <->
      exists line,
        plan = Some line /\ fst (run_shell sys h line) = ShellCompleted 0)
  /\ (forall line e,
         plan = Some line ->
         fst (run_shell sys h line) = ShellRaised e ->
         In (Print (Colors.RED +:+ "Installation failed: " +:+ message e
                    +:+ Colors.RESET))
            (events_of (auto_install sys h))).
Proof.
  intros E. rewrite get_install_command_run in E.
  change (Ok (fst (first_found (found sys h) package_managers)) = Ok plan)
    in E.
  assert (EP : plan = fst (first_found (found sys h) package_managers))
    by congruence.
  clear E. subst plan. rewrite auto_install_run.
  destruct (fst (first_found (found sys h) package_managers)) as [line|].
  - cbv zeta. destruct (run_shell sys h line) as [[rc|e] h'] eqn:ER;
      cbn [result_of host_of events_of fst snd].
    + split; [eauto|]. split.
      { cbn [shell_commands flat_map app].
        fold (shell_commands
                (map Which (snd (first_found (found sys h) package_managers))
                 ++ [Print ("Running: " +:+ line +:+ LF); Shell line])).
        now rewrite shell_commands_app, shell_commands_searches. }
      split; [reflexivity|]. split.
      * split.
        -- intros [= E]. apply Z.eqb_eq in E. subst rc.
           exists line. rewrite ER. auto.
        -- intros (l & [= <-] & E). rewrite ER in E. cbn in E.
           now injection E as ->.
      * intros l e [= <-] E. rewrite ER in E. discriminate.
    + split; [eauto|]. split.
      { cbn [shell_commands flat_map app].
        fold (shell_commands
                ((map Which (snd (first_found (found sys h) package_managers))
                  ++ [Print ("Running: " +:+ line +:+ LF); Shell line])
                 ++ [Print (Colors.RED +:+ "Installation failed: "
                            +:+ message e +:+ Colors.RESET)])).
        now rewrite !shell_commands_app, shell_commands_searches. }
      split; [reflexivity|]. split.
      * split; [discriminate|].
        intros (l & [= <-] & E). rewrite ER in E. discriminate.
      * intros l e' [= <-] E. rewrite ER in E. cbn in E. injection E as <-.
        apply in_or_app. right. now left.
  - cbn [result_of host_of events_of fst snd]. split; [eauto|]. split.
    { cbn [shell_commands flat_map app].
      fold (shell_commands
              (map Which (snd (first_found (found sys h) package_managers))
               ++ [unable])).
      now rewrite shell_commands_app, shell_commands_searches. }
    split; [reflexivity|]. split.
    + split; [discriminate|]. now intros (l & E & _).
    + discriminate.
Qed.

(** X9. On Linux, after a failed check, with --install: whenever the
    installer reports failure, for whatever reason, the driver prints the
    notice of the failed installation followed by the manual instructions
    for the checks that failed, and exits with code 1, leaving the host the
    installer left. *)
Theorem failed_install_falls_back fuel (h : Host) :
  platform_system proc = "Linux" ->
  all_ok sys proc h = false ->
  install (parse_args proc) = true ->
  result_of (auto_install sys h) = Ok false ->
  result_of (main sys proc (S fuel) h) = Ok (Some 1%Z)
  /\ host_of (main sys proc (S fuel) h) = host_of (auto_install sys h)
  /\ exists before,
      events_of (main sys proc (S fuel) h)
      = before ++ events_of (auto_install sys h)
          ++ install_failed_notice
          :: events_of (manual_instructions sys proc (display_ok proc)
                          (tool_ok sys h "xdotool") (tool_ok sys h "import")
                          (host_of (auto_install sys h))).
Proof.
  intros HL HA HI HF.
  rewrite (main_linux sys proc fuel h HL). cbv zeta.
  fold (display_ok proc) (tool_ok sys h "xdotool") (tool_ok sys h "import").
  fold (all_ok sys proc h). rewrite HA, print_summary_failed, HI.
  destruct (auto_install sys h) as [[r h'] l]. cbn in HF. subst r.
  cbn [result_of host_of events_of fst snd]. repeat split.
  exists (banner :: platform_events proc (verbose (parse_args proc))
            ++ display_events proc (verbose (parse_args proc))
            ++ tool_events sys h "xdotool" (verbose (parse_args proc))
            ++ tool_events sys h "import" (verbose (parse_args proc))
            ++ [Print EmptyString; missing_notice]).
  cbn [app]. now rewrite <- !app_assoc.
Qed.


(** X11. On Linux every round reports all four checks, in the order
    platform, DISPLAY, xdotool, import, each with its own verdict: a failed
    display check or a missing tool does not keep the later checks from
    being made and reported. *)
Theorem linux_round_reports_four_checks fuel (h : Host) :
  platform_system proc = "Linux" ->
  exists later,
    verdicts check_names (events_of (main sys proc (S fuel) h))
    = [("Platform", true);
       ("DISPLAY variable", display_ok proc);
       ("xdotool", tool_ok sys h "xdotool");
       ("import", tool_ok sys h "import")] ++ later.
Proof.
  intros HL. rewrite (main_linux sys proc fuel h HL). cbv zeta.
  cbn [events_of snd]. eexists.
  rewrite verdicts_checks_tail. f_equal.
  change (banner :: ?l) with ([banner] ++ l).
  rewrite !verdicts_app, verdicts_platform_events, verdicts_display_events.
  rewrite !verdicts_tool_events by (cbn; auto).
  apply String.eqb_eq in HL. now rewrite HL.
Qed.

Lemma first_line_single s : has_line_feed (Text.first_line s) = false.
Proof.
  induction s as [|c s IH]; cbn [Text.first_line]; [reflexivity|].
  destruct (Ascii.eqb c (ascii_of_nat 10)) eqn:E; cbn [has_line_feed];
    [reflexivity|].
  rewrite E. exact IH.
Qed.

Lemma version_events_shape answer command flags :
  exists n line,
    version_events answer command flags
    = map (fun f => Run [command; f]) (firstn n flags)
      ++ match line with Some l => [version_line l] | None => [] end
    /\ match line with Some l => has_line_feed l = false | None => True end.
Proof.
  induction flags as [|flag rest IH]; cbn [version_events].
  - now exists 0, None.
  - destruct (answer [command; flag]) as [rc out|e]; cbn [answers_version].
    + destruct ((rc =? 0)%Z && Text.truthy (Text.strip out)) eqn:E.
      * exists 1, (Some (Text.first_line (Text.strip out))).
        split; [reflexivity|apply first_line_single].
      * cbn [passed_over]. rewrite E. cbn [negb].
        destruct IH as (n & line & -> & Hl). now exists (S n), line.
    + cbn [passed_over]. destruct (kind e).
      * destruct IH as (n & line & -> & Hl). now exists (S n), line.
      * destruct IH as (n & line & -> & Hl). now exists (S n), line.
      * now exists 1, None.
Qed.

(** X12. The shape of a version probe, for every tool and every behaviour
    of its invocations: the tool is run with an initial stretch of the flags
    --version, -version, version, -V, in that order and each at most once
    (so at most four times); at most one version line is printed, after the
    last invocation, and it holds no line feed. *)
Theorem version_probe_shape command path verbose (h : Host) :
  exists n line,
    events_of (check_command_version sys command path verbose h)
    = map (fun f => Run [command; f]) (firstn n version_flags)
      ++ match line with Some l => [version_line l] | None => [] end
    /\ match line with Some l => has_line_feed l = false | None => True end.
Proof.
  rewrite check_command_version_run. cbn [events_of snd].
  destruct (truthy_opt path && verbose).
  - apply version_events_shape.
  - now exists 0, None.
Qed.

Lemma printed_searches names : printed (map Which names) = [].
Proof. induction names; cbn; auto. Qed.

Lemma manual_instructions_prints_or_searches d x i (h : Host) :
  Forall print_or_search (events_of (manual_instructions sys proc d x i h)).
Proof.
  assert (HW : Forall print_or_search
                 (map Which (snd (first_found (found sys h) package_managers)))).
  { apply Forall_forall. intros e He.
    apply in_map_iff in He as (n & <- & _). exact I. }
  unfold manual_instructions.
  destruct d, x, i; cbn [negb orb]; run_steps;
    rewrite ?get_install_command_run; cbv beta iota;
    destruct (truthy_opt (fst (first_found (found sys h) package_managers)));
    cbn [events_of snd app];
    repeat first [ apply Forall_nil
                 | apply Forall_cons; [exact I|]
                 | apply Forall_app; split; [exact HW|]
                 | apply Forall_app; split ].
Qed.

Lemma manual_instructions_last d x i (h : Host) :
  exists before,
    events_of (manual_instructions sys proc d x i h)
    = before ++ [retry_hint proc].
Proof.
  unfold manual_instructions.
  destruct d, x, i; cbn [negb orb]; run_steps;
    rewrite ?get_install_command_run; cbv beta iota;
    destruct (truthy_opt (fst (first_found (found sys h) package_managers)));
    cbn [events_of snd]; rewrite !app_assoc; eexists; reflexivity.
Qed.

Ltac plan_cases h E :=
  destruct (fst (first_found (found sys h) package_managers)) as [line|] eqn:E;
  [ let H := fresh in
    pose proof (first_found_line _ _ _ E) as H; cbn in H;
    destruct H as [<-|[<-|[<-|[<-|[]]]]]
  | ].

Lemma mem_In x l : Text.mem x l = true <-> In x l.
Proof.
  unfold Text.mem. rewrite existsb_exists. split.
  - intros (y & Hy & E). apply String.eqb_eq in E. now subst.
  - intros H. exists x. split; [exact H|apply String.eqb_refl].
Qed.

Lemma manual_instructions_display d x i (h : Host) :
  (forall s, In s display_help ->
             In s (printed (events_of (manual_instructions sys proc d x i h))))
  <-> d = false.
Proof.
  unfold manual_instructions.
  destruct d, x, i; cbn [negb orb]; run_steps;
    rewrite ?get_install_command_run; cbv beta iota;
    plan_cases h E; cbn [truthy_opt Text.truthy events_of snd];
    rewrite ?printed_app, ?printed_searches;
    (split;
     [ try reflexivity;
       intros H; specialize (H _ (or_introl eq_refl));
       apply mem_In in H; vm_compute in H; discriminate
     | try discriminate;
       intros _ s [<-|[<-|[]]]; apply mem_In; vm_compute; reflexivity ]).
Qed.

Lemma manual_instructions_install_line d x i (h : Host) line :
  x && i = false ->
  result_of (get_install_command sys h) = Ok (Some line) ->
  In ("    " +:+ line)
     (printed (events_of (manual_instructions sys proc d x i h))).
Proof.
  intros Hx Hp. rewrite get_install_command_run in Hp.
  change (Ok (fst (first_found (found sys h) package_managers))
          = Ok (Some line)) in Hp.
  assert (E : fst (first_found (found sys h) package_managers) = Some line)
    by congruence.
  clear Hp. pose proof (first_found_line _ _ _ E) as H4. cbn in H4.
  unfold manual_instructions.
  destruct d, x, i; try discriminate Hx; cbn [negb orb]; run_steps;
    rewrite get_install_command_run; cbv beta iota; rewrite E;
    destruct H4 as [<-|[<-|[<-|[<-|[]]]]];
    cbn [truthy_opt Text.truthy events_of snd];
    rewrite ?printed_app, ?printed_searches;
    apply mem_In; vm_compute; reflexivity.
Qed.

(** X13. The manual instructions, for every outcome of the checks: they
    only print and search the path (no tool is run, nothing goes to the
    shell, the host stays as it is); they open with the heading and close
    with the hint to run again with --install, naming the script as it was
    started; the help for DISPLAY is printed exactly when the display check
    failed; no package manager is searched for when both tools are present;
    and when a tool is missing and a package manager is found, that
    manager's install command line is printed. *)
Theorem manual_instructions_contents d x i (h : Host) :
  result_of (manual_instructions sys proc d x i h) = Ok tt
  /\ host_of (manual_instructions sys proc d x i h) = h
  /\ Forall print_or_search
       (events_of (manual_instructions sys proc d x i h))
  /\ hd_error (events_of (manual_instructions sys proc d x i h))
     = Some instructions_header
  /\ (exists before,
         events_of (manual_instructions sys proc d x i h)
         = before ++ [retry_hint proc])
  /\ ((forall s, In s display_help ->
                 In s (printed
                         (events_of (manual_instructions sys proc d x i h))))
      <-> d = false)
  /\ (x && i = true ->
      probes (events_of (manual_instructions sys proc d x i h)) = [])
  /\ (forall line,
         x && i = false ->
         result_of (get_install_command sys h) = Ok (Some line) ->
         In ("    " +:+ line)
            (printed (events_of (manual_instructions sys proc d x i h)))).
Proof.
  split; [now rewrite manual_instructions_run|].
  split; [now rewrite manual_instructions_run|].
  split; [apply manual_instructions_prints_or_searches|].
  split.
  { destruct (manual_instructions_header sys proc d x i h) as (l & ->).
    reflexivity. }
  split; [apply manual_instructions_last|].
  split; [apply manual_instructions_display|].
  split; [|intros line; apply manual_instructions_install_line].
  intros Hx. apply andb_true_iff in Hx as [-> ->].
  unfold manual_instructions. destruct d; reflexivity.
Qed.

End Further.

(** ** The further properties on sample machines *)

Lemma no_install_one_round_witness :
  let p := Demo.process "Linux" None []
             {| verbose := false; install := false |} in
  let h := Demo.host ["import"] in
  install (parse_args p) = false
  /\ main Demo.sys p 3 h = main Demo.sys p 1 h
  /\ result_of (main Demo.sys p 3 h) = Ok (Some 1%Z)
  /\ host_of (main Demo.sys p 3 h) = h
  /\ shell_commands (events_of (main Demo.sys p 3 h)) = [].
Proof.
  intros p h.
  assert (HI : install (parse_args p) = false) by reflexivity.
  split; [exact HI|].
  exact (no_install_one_round Demo.sys p 2 h HI).
Defined.

Lemma quiet_mode_runs_no_tool_witness :
  let p := Demo.process "Linux" (Some ":0") ["--inst"]
             {| verbose := false; install := true |} in
  let h := Demo.host ["apt-get"; "import"] in
  verbose (parse_args p) = false
  /\ runs (events_of (main Demo.sys p 2 h)) = [].
Proof.
  intros p h.
  assert (HV : verbose (parse_args p) = false) by reflexivity.
  split; [exact HV|].
  exact (quiet_mode_runs_no_tool Demo.sys p 2 h HV).
Defined.


Lemma exit_code_meaning_witness :
  let p := Demo.process "Linux" (Some ":0") ["--inst"]
             {| verbose := false; install := true |} in
  let h := Demo.host ["apt-get"; "import"] in
  result_of (main Demo.sys p 2 h) = Ok (Some 0%Z)
  /\ platform_system p = "Linux"
  /\ all_ok Demo.sys p (host_of (main Demo.sys p 2 h)) = true.
Proof.
  intros p h.
  assert (HR : result_of (main Demo.sys p 2 h) = Ok (Some 0%Z))
    by reflexivity.
  split; [exact HR|].
  exact (proj1 (exit_code_meaning Demo.sys p 2 h) HR).
Defined.

Lemma auto_install_contract_witness :
  let h := Demo.host ["dnf"; "yum"] in
  let line := "sudo dnf install -y xdotool ImageMagick" in
  result_of (get_install_command Demo.sys h) = Ok (Some line)
  /\ shell_commands (events_of (auto_install Demo.sys h)) = [line]
  /\ host_of (auto_install Demo.sys h) = snd (run_shell Demo.sys h line)
  /\ result_of (auto_install Demo.sys h) = Ok true.
Proof.
  intros h line.
  assert (HP : result_of (get_install_command Demo.sys h) = Ok (Some line))
    by reflexivity.
  split; [exact HP|].
  destruct (auto_install_contract Demo.sys h (Some line) HP)
    as (_ & A & B & C & _).
  split; [exact A|]. split; [exact B|].
  apply C. exists line. split; reflexivity.
Defined.

Lemma failed_install_falls_back_witness :
  let p := Demo.process "Linux" (Some ":0") ["--install"]
             {| verbose := false; install := true |} in
  let h := Demo.host ["import"] in
  platform_system p = "Linux"
  /\ all_ok Demo.sys p h = false
  /\ install (parse_args p) = true
  /\ result_of (auto_install Demo.sys h) = Ok false
  /\ result_of (main Demo.sys p 1 h) = Ok (Some 1%Z)
  /\ host_of (main Demo.sys p 1 h) = host_of (auto_install Demo.sys h).
Proof.
  intros p h.
  assert (HL : platform_system p = "Linux") by reflexivity.
  assert (HA : all_ok Demo.sys p h = false) by reflexivity.
  assert (HI : install (parse_args p) = true) by reflexivity.
  assert (HF : result_of (auto_install Demo.sys h) = Ok false)
    by reflexivity.
  repeat (split; [assumption|]).
  destruct (failed_install_falls_back Demo.sys p 0 h HL HA HI HF)
    as (A & B & _).
  split; assumption.
Defined.


Lemma linux_round_reports_four_checks_witness :
  let p := Demo.process "Linux" None []
             {| verbose := false; install := false |} in
  let h := Demo.host ["import"] in
  platform_system p = "Linux"
  /\ exists later,
      verdicts check_names (events_of (main Demo.sys p 1 h))
      = [("Platform", true); ("DISPLAY variable", false);
         ("xdotool", false); ("import", true)] ++ later.
Proof.
  intros p h.
  assert (HL : platform_system p = "Linux") by reflexivity.
  split; [exact HL|].
  exact (linux_round_reports_four_checks Demo.sys p 0 h HL).
Defined.

Lemma manual_instructions_contents_witness :
  let p := Demo.process "Linux" None []
             {| verbose := false; install := false |} in
  let h := Demo.host ["pacman"; "import"] in
  let line := "sudo pacman -S xdotool imagemagick" in
  false && true = false
  /\ result_of (get_install_command Demo.sys h) = Ok (Some line)
  /\ In ("    " +:+ line)
        (printed (events_of (manual_instructions Demo.sys p false false true h))).
Proof.
  intros p h line.
  assert (HX : false && true = false) by reflexivity.
  assert (HP : result_of (get_install_command Demo.sys h) = Ok (Some line))
    by reflexivity.
  repeat (split; [assumption|]).
  destruct (manual_instructions_contents Demo.sys p false false true h)
    as (_ & _ & _ & _ & _ & _ & _ & A).
  exact (A line HX HP).
Defined.
